(** * MNSF: GNSS time distribution and compliance gating

    A shallow embedding of [modules/gnss/gnss_sync.py] and
    [core/compliance_monitor.py].  Python floats are IEEE-754 binary64
    values, modelled by the Standard Library's [spec_float]; Python ints
    are [Z]; [bytes] and [bytearray] are lists of [byte]; the methods of
    the two manager classes take the object's fields as an explicit
    state record and return the new state beside their result. *)

From Stdlib Require Import ZArith String Ascii DecimalString List Bool Lia.
From Stdlib Require Import Init.Byte.
From Stdlib Require Strings.Byte.
From Stdlib Require Import Floats.SpecFloat.
Import ListNotations.

Local Open Scope Z_scope.

(** ** Python numbers *)

Module PyNum.

(** binary64: 53 bits of precision, exponents below 1024. *)
Definition prec : Z := 53.
Definition emax : Z := 1024.

Definition float := spec_float.

(** [float(z)] for an int that fits (round to nearest, ties to even). *)
Definition float_of_Z (z : Z) : float := binary_normalize prec emax z 0 false.

(** A decimal literal [n/d] with [n] and [d] exactly representable: the
    correctly rounded quotient is the double nearest to the decimal. *)
Definition decimal (n d : Z) : float :=
  SFdiv prec emax (float_of_Z n) (float_of_Z d).

Definition fadd : float -> float -> float := SFadd prec emax.
Definition fsub : float -> float -> float := SFsub prec emax.
Definition fmul : float -> float -> float := SFmul prec emax.

(** Float comparisons; every comparison with a NaN is false. *)
Definition fltb (a b : float) : bool := SFltb a b.
Definition fleb (a b : float) : bool := SFleb a b.
Definition fgtb (a b : float) : bool := SFltb b a.
Definition fgeb (a b : float) : bool := SFleb b a.

(** A number held in a dict or a JSON document: an int or a float. *)
Inductive number : Type :=
| PyInt (z : Z)
| PyFloat (f : float).

(** Python compares an int with a float by value, without rounding the
    int: [m * 2^e] against [z]. *)
Definition int_float_compare (z : Z) (f : float) : option comparison :=
  match f with
  | S754_nan => None
  | S754_infinity s => Some (if s then Gt else Lt)
  | S754_zero _ => Some (z ?= 0)
  | S754_finite s m e =>
      let v := if s then Z.neg m else Z.pos m in
      if 0 <=? e then Some (z ?= v * 2 ^ e)
      else Some (z * 2 ^ (- e) ?= v)
  end.

Definition num_compare (a b : number) : option comparison :=
  match a, b with
  | PyInt x, PyInt y => Some (x ?= y)
  | PyFloat x, PyFloat y => SFcompare x y
  | PyInt x, PyFloat y => int_float_compare x y
  | PyFloat x, PyInt y => option_map CompOpp (int_float_compare y x)
  end.

Definition num_ltb (a b : number) : bool :=
  match num_compare a b with Some Lt => true | _ => false end.
Definition num_leb (a b : number) : bool :=
  match num_compare a b with Some Lt | Some Eq => true | _ => false end.
Definition num_gtb (a b : number) : bool := num_ltb b a.
Definition num_geb (a b : number) : bool := num_leb b a.
Definition num_eqb (a b : number) : bool :=
  match num_compare a b with Some Eq => true | _ => false end.

End PyNum.
Import PyNum.

(** ** Exceptions *)

Inductive exn : Type :=
| IndexError
| ValueError
| OverflowError
| StructError.

Inductive result (A : Type) : Type :=
| Ok (a : A)
| Raise (e : exn).
Arguments Ok {A} a.
Arguments Raise {A} e.

Definition bind {A B : Type} (r : result A) (k : A -> result B) : result B :=
  match r with
  | Ok a => k a
  | Raise e => Raise e
  end.

Notation "x <- r ;; k" := (bind r (fun x => k))
  (at level 61, r at next level, right associativity).

(** ** Bytes, slices and [struct.pack] *)

Module Bytes.

Definition bytes := list byte.

Definition byte_of_Z (z : Z) : byte :=
  match Byte.of_N (Z.to_N (z mod 256)) with
  | Some b => b
  | None => x00
  end.

Definition Z_of_byte (b : byte) : Z := Z.of_N (Byte.to_N b).

(** [bytearray(n)]: [n] zero bytes. *)
Definition bytearray (n : nat) : bytes := repeat x00 n.

(** [b[i]], an IndexError out of range. *)
Definition index (b : bytes) (i : nat) : result byte :=
  match nth_error b i with
  | Some x => Ok x
  | None => Raise IndexError
  end.

(** [b[i] = v], an IndexError out of range. *)
Definition store (b : bytes) (i : nat) (v : byte) : result bytes :=
  if (i <? length b)%nat then Ok (firstn i b ++ v :: skipn (S i) b)
  else Raise IndexError.

(** [b[lo:hi]]: both ends are clamped to the length, never an error. *)
Definition slice (b : bytes) (lo hi : nat) : bytes :=
  firstn (hi - lo) (skipn lo b).

(** [b[lo:hi] = v] on a bytearray: the slice is replaced by [v], whatever
    the length of [v], so the array may shrink or grow. *)
Definition slice_assign (b : bytes) (lo hi : nat) (v : bytes) : bytes :=
  firstn lo b ++ v ++ skipn (Nat.max lo hi) b.

(** Big-endian 32-bit unsigned, the ['!I'] format. *)
Definition be32 (n : Z) : bytes :=
  [ byte_of_Z (Z.shiftr n 24); byte_of_Z (Z.shiftr n 16);
    byte_of_Z (Z.shiftr n 8); byte_of_Z n ].

Definition fits_u32 (n : Z) : bool := (0 <=? n) && (n <=? 4294967295).

(** [struct.pack('!II', a, b)]: [struct.error] unless both arguments
    are in [0, 2^32 - 1]. *)
Definition pack_II (a b : Z) : result bytes :=
  if fits_u32 a && fits_u32 b then Ok (be32 a ++ be32 b)
  else Raise StructError.

End Bytes.
Import Bytes.

(** ** modules/gnss/gnss_sync.py *)

Module Gnss.

Inductive SyncStatus : Type :=
| UNLOCKED | ACQUIRING | TRACKING | LOCKED | HOLDOVER | FAULT.

(** The fields are annotated [float]; an int passed for one of them
    compares as the float of the same value. *)
Record TimeData : Type := mkTimeData {
  gps_time : float;
  utc_time : Z;
  leap_seconds : Z;
  time_quality : float;
  uncertainty_ns : float
}.

Record PositionData : Type := mkPositionData {
  latitude : float;
  longitude : float;
  altitude : float;
  velocity_north : float;
  velocity_east : float;
  velocity_up : float;
  pdop : float;
  hdop : float;
  vdop : float
}.

(** The fields of [GNSSSyncManager] that the methods below read or
    write. *)
Record GNSSSyncManager : Type := mkManager {
  status : SyncStatus;
  time_data : option TimeData;
  position_data : option PositionData;
  compliance_verified : bool
}.

(** [__init__] before any update. *)
Definition init : GNSSSyncManager :=
  mkManager UNLOCKED None None true.

(** The float literals of the module. *)
Definition c_0_98 : float := S754_finite false 8827055269646172 (-53).
Definition c_0_9 : float := S754_finite false 8106479329266893 (-53).
Definition c_50 : float := float_of_Z 50.
Definition c_0_001 : float := S754_finite false 4611686018427388 (-62).

(** [update_gnss_data]: stores the pair and recomputes the status; the
    log line and [broadcast_sync_update] only write to the logger. *)
Definition update_gnss_data (self : GNSSSyncManager)
    (td : TimeData) (pd : PositionData) : GNSSSyncManager :=
  let self := mkManager (status self) (Some td) (Some pd)
                        (compliance_verified self) in
  let st :=
    if fgtb (time_quality td) c_0_98 && fltb (uncertainty_ns td) c_50
    then LOCKED
    else if fgtb (time_quality td) c_0_9 then TRACKING
    else ACQUIRING in
  mkManager st (time_data self) (position_data self)
            (compliance_verified self).

(** The classification as the specification words it, on the pair
    (quality, uncertaintyNs), with the decimal literals 0.98 and 0.9. *)
Definition spec_classify (quality uncertainty_ns : float) : SyncStatus :=
  if fgtb quality (decimal 98 100) && fltb uncertainty_ns (float_of_Z 50)
  then LOCKED
  else if fgtb quality (decimal 9 10) then TRACKING
  else ACQUIRING.

(** [int(x)] on a float: truncation toward zero. *)
Definition int_of_float (x : float) : result Z :=
  match x with
  | S754_nan => Raise ValueError
  | S754_infinity _ => Raise OverflowError
  | S754_zero _ => Ok 0
  | S754_finite s m e =>
      let a := if 0 <=? e then Z.pos m * 2 ^ e
               else Z.pos m / 2 ^ (- e) in
      Ok (if s then - a else a)
  end.

(** The int operand of a mixed float/int operation is converted to a
    float first; an int beyond the double range raises. *)
Definition float_of_int (z : Z) : result float :=
  match float_of_Z z with
  | S754_infinity _ => Raise OverflowError
  | f => Ok f
  end.

(** [time_to_ntp]. *)
Definition time_to_ntp (timestamp : float) : result bytes :=
  seconds <- int_of_float timestamp ;;
  fseconds <- float_of_int seconds ;;
  fraction <- int_of_float
                (fmul (fsub timestamp fseconds) (float_of_Z (2 ^ 32))) ;;
  pack_II seconds fraction.

(** [generate_ntp_response]; [clock] is the reading of [time.time()]. *)
Definition generate_ntp_response (self : GNSSSyncManager)
    (clock : float) (request : bytes) : result bytes :=
  b0 <- index request 0 ;;
  let version := Z.land (Z.shiftr (Z_of_byte b0) 3) 7 in
  b0' <- index request 0 ;;
  let mode := Z.land (Z_of_byte b0') 7 in
  let response := bytearray 48 in
  response <- store response 0 x24 ;;
  let current_time := fadd clock (float_of_Z 2208988800) in
  tx_ts <- time_to_ntp current_time ;;
  let response := slice_assign response 40 48 tx_ts in
  response <-
    match time_data self with
    | Some td =>
        ref_ts <- time_to_ntp (fadd (gps_time td) (float_of_Z 315964800)) ;;
        Ok (slice_assign response 16 24 ref_ts)
    | None => Ok response
    end ;;
  let response := slice_assign response 24 32 (slice request 40 48) in
  rx_ts <- time_to_ntp (fsub current_time c_0_001) ;;
  let response := slice_assign response 32 40 rx_ts in
  Ok response.

(** One turn of [run_ntp_server] on a received datagram: the packet to
    send back, if any.  A short datagram is ignored; an exception is
    caught and logged, and nothing is sent. *)
Definition run_ntp_server (self : GNSSSyncManager) (clock : float)
    (data : bytes) : option bytes :=
  if (48 <=? length data)%nat then
    match generate_ntp_response self clock data with
    | Ok response => Some response
    | Raise _ => None
    end
  else None.

(** *** The PTP announcer *)

(** Big-endian 64-bit unsigned, the ['!Q'] format. *)
Definition be64 (n : Z) : bytes :=
  [ byte_of_Z (Z.shiftr n 56); byte_of_Z (Z.shiftr n 48);
    byte_of_Z (Z.shiftr n 40); byte_of_Z (Z.shiftr n 32);
    byte_of_Z (Z.shiftr n 24); byte_of_Z (Z.shiftr n 16);
    byte_of_Z (Z.shiftr n 8); byte_of_Z n ].

Definition fits_u64 (n : Z) : bool :=
  (0 <=? n) && (n <=? 18446744073709551615).

(** [struct.pack('!Q', a)]. *)
Definition pack_Q (a : Z) : result bytes :=
  if fits_u64 a then Ok (be64 a) else Raise StructError.

(** The literal [1e9]. *)
Definition c_1e9 : float := float_of_Z 1000000000.

(** [create_ptp_sync_message]. *)
Definition create_ptp_sync_message (self : GNSSSyncManager) : result bytes :=
  let message := bytearray 44 in
  message <- store message 0 x10 ;;
  message <- store message 1 x02 ;;
  correction <-
    match time_data self with
    | Some td => int_of_float (fmul (uncertainty_ns td) c_1e9)
    | None => Ok 0
    end ;;
  packed <- pack_Q correction ;;
  Ok (slice_assign message 8 16 packed).

(** One turn of [run_ptp_server]: the sync message it builds, if any.
    Nothing is built unless the status is LOCKED and a sample is held;
    an exception is caught and logged. *)
Definition run_ptp_server (self : GNSSSyncManager) : option bytes :=
  match status self, time_data self with
  | LOCKED, Some _ =>
      match create_ptp_sync_message self with
      | Ok sync_msg => Some sync_msg
      | Raise _ => None
      end
  | _, _ => None
  end.

(** The unsigned integer a big-endian byte string stands for. *)
Definition be_decode (b : bytes) : Z :=
  fold_left (fun acc x => acc * 256 + Z_of_byte x) b 0.

(** *** The timing self-check *)

(** The literals of [check_compliance]: 100, 0.95 and 0.1e-6. *)
Definition c_100 : float := float_of_Z 100.
Definition c_0_95 : float := S754_finite false 8556839292003942 (-53).
Definition c_0_1e_6 : float := S754_finite false 7555786372591432 (-76).

(** The line [check_compliance] appends to the violations file. *)
Record ViolationRecord : Type := mkViolationRecord {
  vr_timestamp : string;
  vr_violations : list string;
  vr_status : string;
  vr_action_taken : string
}.

Section Formatting.

(** The texts of [f"{x}"] and [f"{x:.2e}"] for a float are taken as
    given. *)
Variable str_float : float -> string.
Variable fmt_2e : float -> string.

(** [check_compliance]: the record appended to the violations file
    (taken to be writable), if any, and the returned flag.  [frequency_stability] is the attribute
    of that name, [None] when the object has none; [now] is the clock
    reading in ISO format. *)
Definition check_compliance (self : GNSSSyncManager)
    (frequency_stability : option float) (now : string)
  : option ViolationRecord * bool :=
  let violations : list string := [] in
  let violations :=
    match time_data self with
    | Some td =>
        let violations :=
          if fgtb (uncertainty_ns td) c_100
          then violations ++
               [String.append "Timing uncertainty too high: "
                  (String.append (str_float (uncertainty_ns td)) "ns")]
          else violations in
        if fltb (time_quality td) c_0_95
        then violations ++
             [String.append "Time quality below threshold: "
                (str_float (time_quality td))]
        else violations
    | None => violations
    end in
  let violations :=
    match frequency_stability with
    | Some fs =>
        if fgtb (SFabs fs) c_0_1e_6
        then violations ++
             [String.append "Frequency stability out of spec: " (fmt_2e fs)]
        else violations
    | None => violations
    end in
  (match violations with
   | [] => None
   | _ => Some (mkViolationRecord now violations "non_compliant"
                                  "continue_monitoring")
   end,
   (length violations =? 0)%nat).

End Formatting.

(** *** Sample inputs *)

(** A sample with quality 0.99 and uncertainty 25.5 ns. *)
Definition good_sample : TimeData :=
  mkTimeData (float_of_Z 1446325200) 0 18 (decimal 99 100) (decimal 255 10).

(** A sample whose uncertainty is -0.5 ns. *)
Definition negative_sample : TimeData :=
  mkTimeData (float_of_Z 1446325200) 0 18 (decimal 99 100)
             (SFopp (decimal 5 10)).

Definition sample_position : PositionData :=
  mkPositionData (decimal 377749 10000) (SFopp (decimal 1224194 10000))
    (float_of_Z 10) (decimal 1 10) (decimal 2 10) (decimal 1 100)
    (decimal 12 10) (float_of_Z 1) (decimal 15 10).

(** A request of 44 bytes. *)
Definition short_request : bytes := x1b :: repeat x00 43.

(** A request of 48 zero bytes. *)
Definition zero_request : bytes := repeat x00 48.

(** A version-3 client request: byte 0 is 0x1b, the rest zero. *)
Definition client_request : bytes := x1b :: repeat x00 47.

(** A sample whose GPS time is 4.0e9 s. *)
Definition far_sample : TimeData :=
  mkTimeData (float_of_Z 4000000000) 0 18 (decimal 99 100) (float_of_Z 25).

(** [time.time()] = 1762290000.25, a day of November 2025. *)
Definition clock_2025 : float := S754_finite false 7391579997208576 (-22).

(** [time.time()] = 2085978496.0 = 2^32 - 2208988800: 2036-02-07
    06:28:16 UTC. *)
Definition clock_2036 : float := float_of_Z 2085978496.

End Gnss.

(** ** core/compliance_monitor.py *)

Module Compliance.

(** A dict with string keys, in insertion order; a key occurs once.
    The values of a request's parameters and the bounds of the 3GPP
    table are numbers, ints or floats, as the configuration and the
    tests have them: no comparison between two of them raises. *)
Definition dict (A : Type) : Type := list (string * A).

Fixpoint lookup {A : Type} (k : string) (d : dict A) : option A :=
  match d with
  | [] => None
  | (k', v) :: rest => if String.eqb k k' then Some v else lookup k rest
  end.

(** [l[-n:]]. *)
Definition last_n {A : Type} (n : nat) (l : list A) : list A :=
  skipn (length l - n) l.

(** [needle in haystack] on strings. *)
Definition contains (haystack needle : string) : bool :=
  match String.index 0 needle haystack with
  | Some _ => true
  | None => false
  end.

Inductive ComplianceLevel : Type := LAB | TEST | PRODUCTION.

Definition is_lab (l : ComplianceLevel) : bool :=
  match l with LAB => true | _ => false end.

Record RegulatoryRule : Type := mkRule {
  id : string;
  standard : string;
  description : string;
  requirement : string;
  max_violations : Z;
  penalty : string
}.

(** One entry of the 3GPP table: [{min?, max?, allowed?}]. *)
Record ParamSpec : Type := mkParamSpec {
  spec_min : option number;
  spec_max : option number;
  spec_allowed : option (list number)
}.

(** The 3GPP document; [standards_list] is its key [standards].
    [requirements] is optional in the schema; the absent key reads as the
    empty table ([.get('requirements', {})]), and
    [_check_3gpp_requirement] is reached only for an operation found in
    the table. *)
Record Standards : Type := mkStandards {
  version : string;
  standards_list : list string;
  requirements : dict (dict ParamSpec)
}.

Definition parameters_t : Type := dict number.

(** An element of [check_result['violations']]. *)
Record Violation : Type := mkViolation {
  rule_id : string;
  v_standard : string;
  v_description : string;
  v_penalty : string
}.

(** [check_result]. *)
Record CheckResult : Type := mkCheckResult {
  operation : string;
  parameters : parameters_t;
  timestamp : string;
  compliant : bool;
  violations : list Violation;
  operation_id : string
}.

(** The record [monitor_gnss_operation] appends to the violation log. *)
Record GnssViolation : Type := mkGnssViolation {
  g_module : string;
  g_timestamp : string;
  failed_checks : list string;
  g_action : string
}.

(** The violation log holds both kinds of dict. *)
Inductive LogEntry : Type :=
| CheckEntry (c : CheckResult)
| GnssEntry (g : GnssViolation).

(** [violations_log] is [self.violations]. *)
Record ComplianceMonitor : Type := mkMonitor {
  rules : list RegulatoryRule;
  violations_log : list LogEntry;
  compliance_level : ComplianceLevel;
  operations_log : list CheckResult;
  standards : Standards
}.

Inductive Action : Type := proceed | warn | block.

(** The dict returned by [enforce_compliance]; the proceed branch has no
    [violations] key. *)
Record Decision : Type := mkDecision {
  allowed : bool;
  action : Action;
  message : string;
  d_violations : option (list LogEntry)
}.

Record Summary : Type := mkSummary {
  total_operations : nat;
  compliant_operations : nat;
  non_compliant_operations : nat;
  total_violations : nat
}.

Record Report : Type := mkReport {
  report_id : string;
  generated : string;
  r_compliance_level : ComplianceLevel;
  summary : Summary;
  rules_loaded : nat;
  standards_loaded : list string;
  operations_analysis : list CheckResult;
  r_violations : list LogEntry;
  recommendations : list string
}.

(** The float literals of [_get_allowed_bands]. *)
Definition c_1575_42e6 : float := float_of_Z 1575420000.
Definition c_10e6 : float := float_of_Z 10000000.
Definition c_2400e6 : float := float_of_Z 2400000000.
Definition c_2483_5e6 : float := float_of_Z 2483500000.
Definition c_1e9 : float := float_of_Z 1000000000.

Section Monitor.

(** [hashlib.md5(s.encode()).hexdigest()] and [json.dumps] are taken
    as given functions. *)
Variable md5_hexdigest : string -> string.
Variable json_dumps : parameters_t -> string.

Definition _get_allowed_bands (self : ComplianceMonitor)
  : list (number * number) :=
  if is_lab (compliance_level self) then
    [ (PyFloat (fsub c_1575_42e6 c_10e6), PyFloat (fadd c_1575_42e6 c_10e6));
      (PyFloat c_2400e6, PyFloat c_2483_5e6);
      (PyInt 0, PyFloat c_1e9) ]
  else [].

(** [any(low <= freq <= high for (low, high) in allowed_bands)]. *)
Definition in_bands (freq : number) (bands : list (number * number))
  : bool :=
  existsb (fun b => num_leb (fst b) freq && num_leb freq (snd b)) bands.

(** The condition of the first early return of [_check_rule]. *)
Definition frequency_violated (self : ComplianceMonitor)
    (params : parameters_t) : bool :=
  match lookup "frequency" params with
  | Some freq => negb (in_bands freq (_get_allowed_bands self))
  | None => false
  end.

(** The condition of the second early return of [_check_rule]. *)
Definition power_violated (self : ComplianceMonitor)
    (params : parameters_t) : bool :=
  match lookup "tx_power" params with
  | Some tx_power =>
      let max_power := if is_lab (compliance_level self) then -30 else 10 in
      num_gtb tx_power (PyInt max_power)
  | None => false
  end.

Definition _check_rule (self : ComplianceMonitor) (rule : RegulatoryRule)
    (op : string) (params : parameters_t) : bool :=
  if frequency_violated self params then false
  else if power_violated self params then false
  else true.

(** The body of the loop of [_check_3gpp_requirement] on one item:
    [true] when one of its three returns is taken. *)
Definition spec_violated (spec : ParamSpec) (value : number) : bool :=
  match spec_min spec with
  | Some lo => num_ltb value lo
  | None => false
  end
  || match spec_max spec with
     | Some hi => num_gtb value hi
     | None => false
     end
  || match spec_allowed spec with
     | Some vs => negb (existsb (num_eqb value) vs)
     | None => false
     end.

Fixpoint check_items (items : dict ParamSpec) (params : parameters_t)
  : bool :=
  match items with
  | [] => true
  | (param, spec) :: rest =>
      match lookup param params with
      | Some value =>
          if spec_violated spec value then false
          else check_items rest params
      | None => check_items rest params
      end
  end.

Definition _check_3gpp_requirement (self : ComplianceMonitor)
    (op : string) (params : parameters_t) : bool :=
  let reqs := match lookup op (requirements (standards self)) with
              | Some r => r
              | None => []
              end in
  check_items reqs params.

Definition rule_violation (rule : RegulatoryRule) : Violation :=
  mkViolation (id rule) (standard rule) (description rule) (penalty rule).

Definition gpp_violation (op : string) : Violation :=
  mkViolation "3GPP_VIOLATION" "3GPP"
    (String.append "Violates 3GPP requirement for " op)
    "operation_blocked".

Definition fail (cr : CheckResult) (v : Violation) : CheckResult :=
  mkCheckResult (operation cr) (parameters cr) (timestamp cr) false
    (violations cr ++ [v]) (operation_id cr).

(** The verdict of [check_operation], before it is logged; [now] is
    [datetime.now(timezone.utc).isoformat()]. *)
Definition evaluate (self : ComplianceMonitor) (op : string)
    (params : parameters_t) (now : string) : CheckResult :=
  let operation_id :=
    md5_hexdigest (String.append op (json_dumps params)) in
  let check_result := mkCheckResult op params now true [] operation_id in
  let check_result :=
    fold_left
      (fun cr rule =>
         if negb (_check_rule self rule op params)
         then fail cr (rule_violation rule)
         else cr)
      (rules self) check_result in
  match lookup op (requirements (standards self)) with
  | Some _ =>
      if negb (_check_3gpp_requirement self op params)
      then fail check_result (gpp_violation op)
      else check_result
  | None => check_result
  end.

Definition check_operation (self : ComplianceMonitor) (op : string)
    (params : parameters_t) (now : string) : ComplianceMonitor * bool :=
  let check_result := evaluate self op params now in
  let operations_log := operations_log self ++ [check_result] in
  let violations_log :=
    if negb (compliant check_result)
    then violations_log self ++ [CheckEntry check_result]
    else violations_log self in
  (mkMonitor (rules self) violations_log (compliance_level self)
             operations_log (standards self),
   compliant check_result).

(** [v.get('operation') == operation]. *)
Definition entry_is (op : string) (v : LogEntry) : bool :=
  match v with
  | CheckEntry c => String.eqb (operation c) op
  | GnssEntry _ => false
  end.

Definition enforce_compliance (self : ComplianceMonitor) (op : string)
    (params : parameters_t) (now : string) : ComplianceMonitor * Decision :=
  let (self, ok) := check_operation self op params now in
  if ok then
    (self, mkDecision true proceed "Operation compliant with regulations"
                      None)
  else
    let recent_violations :=
      filter (entry_is op) (last_n 10 (violations_log self)) in
    if (3 <=? length recent_violations)%nat then
      (self, mkDecision false block
               "Operation blocked due to multiple violations"
               (Some recent_violations))
    else
      (self, mkDecision true warn
               "Operation allowed with compliance warning"
               (Some recent_violations)).

(** [monitor_gnss_operation]; [config] is the text of the active GNSS
    configuration, [None] when it cannot be read. *)
Definition monitor_gnss_operation (self : ComplianceMonitor)
    (config : option string) (now : string) : ComplianceMonitor * bool :=
  match config with
  | None => (self, false)
  | Some config =>
      let checks :=
        [ ("Lab mode enabled", contains config "LAB MODE ENABLED");
          ("Transmission disabled",
           contains config "enable_throttle_control=true");
          ("GPS L1 frequency", contains config "1575420000");
          ("Compliance header present",
           contains config "Compliance Standards:") ]%string in
      let all_passed := forallb snd checks in
      if negb all_passed then
        let failed := map fst (filter (fun c => negb (snd c)) checks) in
        (mkMonitor (rules self)
           (violations_log self ++
              [GnssEntry (mkGnssViolation "gnss" now failed
                                          "shutdown_recommended")])
           (compliance_level self) (operations_log self) (standards self),
         all_passed)
      else (self, all_passed)
  end.

(** [d[k] = d.get(k, 0) + 1]: a present key keeps its place. *)
Fixpoint bump (k : string) (d : dict nat) : dict nat :=
  match d with
  | [] => [(k, 1%nat)]
  | (k', n) :: rest =>
      if String.eqb k k' then (k', S n) :: rest
      else (k', n) :: bump k rest
  end.

(** [violation.get('violations', [])]. *)
Definition entry_violations (v : LogEntry) : list Violation :=
  match v with
  | CheckEntry c => violations c
  | GnssEntry _ => []
  end.

Definition str_of_nat (n : nat) : string :=
  NilEmpty.string_of_uint (Nat.to_uint n).

Definition _generate_recommendations (self : ComplianceMonitor)
  : list string :=
  let violation_counts :=
    fold_left
      (fun counts violation =>
         fold_left (fun counts v => bump (rule_id v) counts)
                   (entry_violations violation) counts)
      (violations_log self) [] in
  let recommendations :=
    map (fun kc =>
           String.append "High frequency of "
             (String.append (fst kc)
                (String.append " violations ("
                   (String.append (str_of_nat (snd kc))
                      "x). Consider retraining."))))
        (filter (fun kc => (5 <? snd kc)%nat) violation_counts) in
  let recommendations :=
    if (10 <? length (violations_log self))%nat
    then recommendations ++
         ["High violation rate detected. Review operational procedures."
          %string]
    else recommendations in
  match recommendations with
  | [] => ["All operations within compliance limits. Continue monitoring."
           %string]
  | _ => recommendations
  end.

(** [sum(1 for x in l if p(x))]. *)
Definition count_if {A : Type} (p : A -> bool) (l : list A) : nat :=
  length (filter p l).

(** [generate_compliance_report]; the report is also written to a
    file, which leaves the monitor as it was.  [now_local] and
    [now_utc] are the two clock readings in ISO format. *)
Definition generate_compliance_report (self : ComplianceMonitor)
    (now_local now_utc : string) : Report :=
  mkReport
    (md5_hexdigest now_local)
    now_utc
    (compliance_level self)
    (mkSummary
       (length (operations_log self))
       (count_if compliant (operations_log self))
       (count_if (fun op => negb (compliant op)) (operations_log self))
       (length (violations_log self)))
    (length (rules self))
    (standards_list (standards self))
    (last_n 100 (operations_log self))
    (last_n 50 (violations_log self))
    (_generate_recommendations self).

(** *** Histories of calls *)

Inductive call : Type :=
| CallCheck (op : string) (params : parameters_t) (now : string)
| CallEnforce (op : string) (params : parameters_t) (now : string)
| CallGnss (config : option string) (now : string)
| CallReport (now_local now_utc : string).

Definition step (self : ComplianceMonitor) (c : call) : ComplianceMonitor :=
  match c with
  | CallCheck op params now => fst (check_operation self op params now)
  | CallEnforce op params now => fst (enforce_compliance self op params now)
  | CallGnss config now => fst (monitor_gnss_operation self config now)
  | CallReport _ _ => self
  end.

Definition run (self : ComplianceMonitor) (cs : list call)
  : ComplianceMonitor :=
  fold_left step cs self.

(** A monitor as [__init__] leaves it: the configuration loaded and
    both logs empty. *)
Definition fresh (rs : list RegulatoryRule) (lvl : ComplianceLevel)
    (stds : Standards) : ComplianceMonitor :=
  mkMonitor rs [] lvl [] stds.

(** *** Notions used in the statements *)

(** The entries the loop over the rules appends. *)
Definition rule_violations (self : ComplianceMonitor) (op : string)
    (params : parameters_t) : list Violation :=
  map rule_violation
      (filter (fun rule => negb (_check_rule self rule op params))
              (rules self)).

(** The 3GPP step of [check_operation] adds nothing. *)
Definition gpp_passes (self : ComplianceMonitor) (op : string)
    (params : parameters_t) : bool :=
  match lookup op (requirements (standards self)) with
  | Some _ => _check_3gpp_requirement self op params
  | None => true
  end.

(** How many of the last [n] entries of a violation log are for [op]. *)
Definition recent_count (n : nat) (op : string) (log : list LogEntry) : nat :=
  length (filter (entry_is op) (last_n n log)).

(** A call that checks [op] and finds it non-compliant, under the
    configuration of [self]. *)
Definition is_violation_of (self : ComplianceMonitor) (op : string)
    (c : call) : bool :=
  match c with
  | CallCheck op' params now | CallEnforce op' params now =>
      String.eqb op' op && negb (compliant (evaluate self op' params now))
  | CallGnss _ _ | CallReport _ _ => false
  end.

(** A call that audits an operation. *)
Definition is_audited (c : call) : bool :=
  match c with
  | CallCheck _ _ _ | CallEnforce _ _ _ => true
  | CallGnss _ _ | CallReport _ _ => false
  end.

(** *** The window of the gate, in the words of the specification *)

(** The specification counts, among the most recent 10 entries of the
    violation log, those whose operation name equals the request's.
    These definitions say that on the operation names alone, apart from
    the code of [enforce_compliance]. *)

(** The operation name an entry of the violation log carries, if any. *)
Definition spec_operation_of (e : LogEntry) : option string :=
  match e with
  | CheckEntry c => Some (operation c)
  | GnssEntry _ => None
  end.

(** The [n] most recent elements of a log, oldest first. *)
Definition spec_most_recent {A : Type} (n : nat) (l : list A) : list A :=
  rev (firstn n (rev l)).

(** Equality of two names is decidable. *)
Definition name_eq_dec (a b : option string) : {a = b} + {a <> b}.
Proof. decide equality. apply string_dec. Defined.

(** How many of the names are the operation [op]. *)
Definition spec_count_for (op : string) (names : list (option string)) : nat :=
  count_occ name_eq_dec names (Some op).

(** What a call appends to the violation log, by operation name: a
    non-compliant check its operation, a failed GNSS check an entry
    without one, any other call nothing. *)
Definition logged (self : ComplianceMonitor) (c : call)
  : list (option string) :=
  match c with
  | CallCheck op params now | CallEnforce op params now =>
      if compliant (evaluate self op params now) then [] else [Some op]
  | CallGnss (Some config) now =>
      if snd (monitor_gnss_operation self (Some config) now) then []
      else [None]
  | CallGnss None _ | CallReport _ _ => []
  end.

(** The names logged over a history of calls, oldest first. *)
Definition logged_history (self : ComplianceMonitor) (cs : list call)
  : list (option string) :=
  flat_map (logged self) cs.

End Monitor.

(** *** The compliance level of the configuration *)

(** [level.value]. *)
Definition level_value (l : ComplianceLevel) : string :=
  match l with
  | LAB => "lab"
  | TEST => "test"
  | PRODUCTION => "production"
  end.

(** [ComplianceLevel(s)]: the member of that value, else a ValueError. *)
Definition parse_level (s : string) : result ComplianceLevel :=
  if String.eqb s "lab" then Ok LAB
  else if String.eqb s "test" then Ok TEST
  else if String.eqb s "production" then Ok PRODUCTION
  else Raise ValueError.

(** [ComplianceLevel(config.get('compliance_level', 'lab'))] in
    [load_regulations]; the argument is the value of the key, if the
    configuration has it. *)
Definition load_level (configured : option string) : result ComplianceLevel :=
  parse_level (match configured with Some s => s | None => "lab"%string end).

(** *** More notions used in the statements *)

(** The verdicts among the entries of a violation log. *)
Definition check_entries (log : list LogEntry) : list CheckResult :=
  flat_map (fun e => match e with
                     | CheckEntry c => [c]
                     | GnssEntry _ => []
                     end) log.

(** The records of failed GNSS checks among the entries of a log. *)
Definition gnss_entries (log : list LogEntry) : list GnssViolation :=
  flat_map (fun e => match e with
                     | CheckEntry _ => []
                     | GnssEntry g => [g]
                     end) log.

(** The verdicts of the violation log are the non-compliant verdicts of
    the audit trail, in order. *)
Definition logs_agree (self : ComplianceMonitor) : Prop :=
  check_entries (violations_log self)
  = filter (fun c => negb (compliant c)) (operations_log self).

(** A float that stands for the integer [c]: [m * 2^e] with [e < 0]. *)
Definition float_is_int (x : float) (c : Z) : Prop :=
  exists m e, x = S754_finite false m e /\ e < 0 /\ Z.pos m = c * 2 ^ (- e).

(** The dict [violation_counts] that [_generate_recommendations] builds
    from a violation log. *)
Definition violation_counts (log : list LogEntry) : dict nat :=
  fold_left
    (fun counts violation =>
       fold_left (fun counts v => bump (rule_id v) counts)
                 (entry_violations violation) counts)
    log [].

(** [d.get(k, 0)]. *)
Definition get_count (k : string) (d : dict nat) : nat :=
  match lookup k d with
  | Some n => n
  | None => 0%nat
  end.

(** How many times rule [r] is named by the violations of a log. *)
Definition occurrences (r : string) (log : list LogEntry) : nat :=
  count_if (fun v => String.eqb r (rule_id v))
           (flat_map entry_violations log).

(** The note of [_generate_recommendations] for a rule and its count. *)
Definition retraining_note (r : string) (n : nat) : string :=
  String.append "High frequency of "
    (String.append r
       (String.append " violations ("
          (String.append (str_of_nat n) "x). Consider retraining."))).

Definition review_note : string :=
  "High violation rate detected. Review operational procedures.".

Definition default_note : string :=
  "All operations within compliance limits. Continue monitoring.".

(** *** Sample inputs *)

(** Stand-ins for the digest and the serializer: the text itself, and the
    keys in order. *)
Definition plain_digest (s : string) : string := s.
Definition keys_dumps (params : parameters_t) : string :=
  String.concat "," (map fst params).

Definition sample_rule : RegulatoryRule :=
  mkRule "REG-001" "ITU-R" "Lab transmissions are shielded"
         "no_radiated_emission" 3 "shutdown".

(** A table that bounds the bandwidth and the frequency of one
    operation. *)
Definition sample_standards : Standards :=
  mkStandards "17.1.0" ["3GPP TS 36.133"; "3GPP TS 25.133"]%string
    [ ("signal_analyze",
       [ ("bandwidth",
          mkParamSpec (Some (PyInt 1400000)) (Some (PyInt 20000000)) None);
         ("modulation_order",
          mkParamSpec None None (Some [PyInt 2; PyInt 4; PyInt 6])) ]);
      ("narrowband_receive",
       [ ("frequency", mkParamSpec None (Some (PyInt 1000000000)) None) ])
    ]%string.

Definition lab_monitor : ComplianceMonitor :=
  fresh [sample_rule] LAB sample_standards.

Definition test_monitor : ComplianceMonitor :=
  fresh [sample_rule] TEST sample_standards.

(** [{frequency: 1575420000, tx_power: -30}]. *)
Definition gps_params : parameters_t :=
  [("frequency", PyInt 1575420000); ("tx_power", PyInt (-30))]%string.

(** [{frequency: 940000000, tx_power: 20}]. *)
Definition gsm_params : parameters_t :=
  [("frequency", PyInt 940000000); ("tx_power", PyInt 20)]%string.

(** [{bandwidth: 100, modulation_order: 3}]: below the minimum
    bandwidth, and an order that is not in the allowed list. *)
Definition narrow_params : parameters_t :=
  [("bandwidth", PyInt 100); ("modulation_order", PyInt 3)]%string.

(** Three clock readings, a second apart. *)
Definition t0 : string := "2025-11-04T10:00:00+00:00".
Definition t1 : string := "2025-11-04T10:00:01+00:00".
Definition t2 : string := "2025-11-04T10:00:02+00:00".

(** The LAB monitor after two non-compliant requests for one operation
    and a failed GNSS check between them. *)
Definition warned_twice : ComplianceMonitor :=
  run plain_digest keys_dumps lab_monitor
    [ CallEnforce "transmit_signal" gsm_params t0;
      CallGnss (Some "LAB MODE ENABLED"%string) t0;
      CallEnforce "transmit_signal" gsm_params t1 ].

(** A configuration text with every marker [monitor_gnss_operation]
    looks for, and one that lacks the throttle setting. *)
Definition full_config : string :=
  "; LAB MODE ENABLED; Compliance Standards: 3GPP; enable_throttle_control=true; freq=1575420000".
Definition open_config : string :=
  "; LAB MODE ENABLED; Compliance Standards: 3GPP; freq=1575420000".

(** The LAB monitor after three non-compliant requests for one
    operation. *)
Definition blocked_once : ComplianceMonitor :=
  run plain_digest keys_dumps lab_monitor
    [ CallEnforce "transmit_signal" gsm_params t0;
      CallEnforce "transmit_signal" gsm_params t1;
      CallEnforce "transmit_signal" gsm_params t2 ].

(** A history of three non-compliant requests for one operation, with a
    failed GNSS check and a compliant request between them. *)
Definition three_attempts : list call :=
  [ CallEnforce "transmit_signal" gsm_params t0;
    CallGnss (Some open_config) t0;
    CallEnforce "transmit_signal" gsm_params t1;
    CallEnforce "gnss_receive" gps_params t1;
    CallEnforce "transmit_signal" gsm_params t2 ].

(** The same monitor after nine failed GNSS checks. *)
Definition flushed : ComplianceMonitor :=
  run plain_digest keys_dumps blocked_once
    (repeat (CallGnss (Some open_config) t0) 9).

(** Six non-compliant checks of one operation at level LAB. *)
Definition six_violations : ComplianceMonitor :=
  run plain_digest keys_dumps lab_monitor
    (repeat (CallCheck "transmit_signal" gsm_params t0) 6).

End Compliance.

(** ** core/framework.py *)

(** The coroutines of [MNSFFramework] run one at a time and are embedded
    as functions on the framework's fields.  The files that reports are
    written to are taken to be writable, as for
    [generate_compliance_report]. *)

Module Framework.
Import Compliance.

Inductive ModuleStatus : Type :=
| STOPPED | STARTING | RUNNING | ERROR | COMPLIANCE_FAILED.

(** [last_check] is the ISO text of the local clock reading, if set. *)
Record ModuleInfo : Type := mkModuleInfo {
  name : string;
  status : ModuleStatus;
  description : string;
  compliance_required : bool;
  last_check : option string
}.

Record MNSFFramework : Type := mkFramework {
  modules : dict ModuleInfo;
  compliance_monitor : ComplianceMonitor;
  gnss_sync : option Gnss.GNSSSyncManager;
  running : bool
}.

(** The dict [register_modules] installs. *)
Definition register_modules : dict ModuleInfo :=
  [ ("gnss", mkModuleInfo "gnss" STOPPED
               "GNSS Synchronization and Timing" true None);
    ("sim_swap", mkModuleInfo "sim_swap" STOPPED
                   "SIM Swap Attack Simulation" true None);
    ("intercept", mkModuleInfo "intercept" STOPPED
                    "Signal Interception Analysis" true None);
    ("physical_layer", mkModuleInfo "physical_layer" STOPPED
                         "Physical Layer Attack Simulation" true None);
    ("compliance", mkModuleInfo "compliance" RUNNING
                     "Regulatory Compliance Monitoring" true None) ]%string.

(** [__init__], given the monitor its constructor built. *)
Definition init (monitor : ComplianceMonitor) : MNSFFramework :=
  mkFramework register_modules monitor None false.

(** The object under key [k] is replaced by [f] of it; other keys and
    the order stay. *)
Fixpoint update {A : Type} (k : string) (f : A -> A) (d : dict A) : dict A :=
  match d with
  | [] => []
  | (k', v) :: rest =>
      if String.eqb k k' then (k', f v) :: rest
      else (k', v) :: update k f rest
  end.

Definition set_status (st : ModuleStatus) (m : ModuleInfo) : ModuleInfo :=
  mkModuleInfo (name m) st (description m) (compliance_required m)
               (last_check m).

Definition set_last_check (t : string) (m : ModuleInfo) : ModuleInfo :=
  mkModuleInfo (name m) (status m) (description m) (compliance_required m)
               (Some t).

Definition with_modules (self : MNSFFramework) (ms : dict ModuleInfo)
  : MNSFFramework :=
  mkFramework ms (compliance_monitor self) (gnss_sync self) (running self).

Definition with_monitor (self : MNSFFramework) (monitor : ComplianceMonitor)
  : MNSFFramework :=
  mkFramework (modules self) monitor (gnss_sync self) (running self).

(** What starting a module meets outside the framework: the outcome of
    [GNSSSyncManager()], [None] when the constructor raises, and whether
    [Thread.start] succeeds. *)
Record StartEnv : Type := mkStartEnv {
  gnss_ctor : option Gnss.GNSSSyncManager;
  thread_starts : bool
}.

(** The dict [get_status] returns. *)
Record StatusReport : Type := mkStatusReport {
  s_timestamp : string;
  s_running : bool;
  s_modules : dict (string * string * string * option string);
  s_level : string;
  s_operations : nat;
  s_violations : nat
}.

(** The dict [run_compliance_audit] returns. *)
Record AuditResult : Type := mkAuditResult {
  a_success : bool;
  a_timestamp : string;
  a_module_status : dict (bool * ModuleStatus);
  a_report_id : string;
  a_summary : Summary
}.

(** The dicts [run_test_scenario] returns: the two failures with an
    [error] and a [scenario] key, the failure and the success of the GNSS
    test (of the success, the status and the verified flag that
    [get_sync_info] reports), and the audit. *)
Inductive ScenarioResult : Type :=
| ScenarioError (error scenario : string)
| GnssNotRunning
| GnssTestRan (sync_status : Gnss.SyncStatus) (verified : bool)
| Audited (a : AuditResult).

Definition scenario_success (r : ScenarioResult) : bool :=
  match r with
  | ScenarioError _ _ | GnssNotRunning => false
  | GnssTestRan _ _ => true
  | Audited a => a_success a
  end.

Section Framework.

Variable md5_hexdigest : string -> string.
Variable json_dumps : parameters_t -> string.

(** [start_gnss_module]: the framework after it, and whether it
    returned without an exception. *)
Definition start_gnss_module (self : MNSFFramework) (env : StartEnv)
  : MNSFFramework * bool :=
  match gnss_ctor env with
  | None => (self, false)
  | Some g =>
      (mkFramework (modules self) (compliance_monitor self) (Some g)
                   (running self),
       thread_starts env)
  end.

(** [start_compliance_module]: the thread it starts calls
    [monitor_gnss_operation] once, on its own time
    ([compliance_thread]). *)
Definition start_compliance_module (self : MNSFFramework) (env : StartEnv)
  : MNSFFramework * bool :=
  (self, thread_starts env).

Definition compliance_thread (self : MNSFFramework) (config : option string)
    (now : string) : MNSFFramework :=
  with_monitor self
    (fst (monitor_gnss_operation (compliance_monitor self) config now)).

(** [start_module]; [kwargs] are the keyword arguments, [now_utc] and
    [now_local] the clock readings of the check and of [last_check]. *)
Definition start_module (self : MNSFFramework) (module_name : string)
    (kwargs : parameters_t) (now_utc now_local : string) (env : StartEnv)
  : MNSFFramework * bool :=
  match lookup module_name (modules self) with
  | None => (self, false)
  | Some module =>
      let (self, ok) :=
        if compliance_required module then
          let (monitor, ok) :=
            check_operation md5_hexdigest json_dumps (compliance_monitor self)
              (String.append "start_" module_name) kwargs now_utc in
          (with_monitor self monitor, ok)
        else (self, true) in
      if negb ok then
        (with_modules self
           (update module_name (set_status COMPLIANCE_FAILED) (modules self)),
         false)
      else
        let self :=
          with_modules self
            (update module_name
               (fun m => set_last_check now_local (set_status STARTING m))
               (modules self)) in
        let (self, started) :=
          if String.eqb module_name "gnss" then start_gnss_module self env
          else if String.eqb module_name "compliance"
               then start_compliance_module self env
               else (self, true) in
        if started then
          (with_modules self
             (update module_name (set_status RUNNING) (modules self)), true)
        else
          (with_modules self
             (update module_name (set_status ERROR) (modules self)), false)
  end.

(** [stop_module]. *)
Definition stop_module (self : MNSFFramework) (module_name : string)
  : MNSFFramework * bool :=
  match lookup module_name (modules self) with
  | None => (self, false)
  | Some _ =>
      (with_modules self
         (update module_name (set_status STOPPED) (modules self)), true)
  end.

(** [get_status]. *)
Definition get_status (self : MNSFFramework) (now : string) : StatusReport :=
  mkStatusReport now (running self)
    (map (fun km =>
            (fst km,
             (name (snd km),
              match status (snd km) with
              | STOPPED => "stopped"
              | STARTING => "starting"
              | RUNNING => "running"
              | ERROR => "error"
              | COMPLIANCE_FAILED => "compliance_failed"
              end,
              description (snd km),
              last_check (snd km))))%string
         (modules self))
    (level_value (compliance_level (compliance_monitor self)))
    (length (operations_log (compliance_monitor self)))
    (length (violations_log (compliance_monitor self))).

(** The loop of [run_compliance_audit] over [modules.items()]; the
    [i]-th check reads the clock as [clock i]. *)
Fixpoint audit_modules (monitor : ComplianceMonitor) (ms : dict ModuleInfo)
    (clock : nat -> string) (i : nat)
  : ComplianceMonitor * dict (bool * ModuleStatus) :=
  match ms with
  | [] => (monitor, [])
  | (name, module) :: rest =>
      if compliance_required module then
        let (monitor, compliant) :=
          check_operation md5_hexdigest json_dumps monitor
            (String.append "audit_" name) [] (clock i) in
        let (monitor, module_status) :=
          audit_modules monitor rest clock (S i) in
        (monitor, (name, (compliant, status module)) :: module_status)
      else audit_modules monitor rest clock i
  end.

(** [run_compliance_audit]; [now_local] and [now_utc] are the readings
    of the report, [now] that of the result. *)
Definition run_compliance_audit (self : MNSFFramework)
    (clock : nat -> string) (now_local now_utc now : string)
  : MNSFFramework * AuditResult :=
  let (monitor, module_status) :=
    audit_modules (compliance_monitor self) (modules self) clock 0 in
  let report :=
    generate_compliance_report md5_hexdigest monitor now_local now_utc in
  let all_compliant := forallb (fun st => fst (snd st)) module_status in
  (with_monitor self monitor,
   mkAuditResult all_compliant now module_status (report_id report)
                 (summary report)).

(** [run_gnss_sync_test]. *)
Definition run_gnss_sync_test (self : MNSFFramework) : ScenarioResult :=
  match gnss_sync self with
  | None => GnssNotRunning
  | Some g => GnssTestRan (Gnss.status g) (Gnss.compliance_verified g)
  end.

(** [run_test_scenario]; [now0] is the clock reading of its own check. *)
Definition run_test_scenario (self : MNSFFramework) (scenario : string)
    (now0 : string) (clock : nat -> string) (now_local now_utc now : string)
  : MNSFFramework * ScenarioResult :=
  let (monitor, ok) :=
    check_operation md5_hexdigest json_dumps (compliance_monitor self)
      (String.append "scenario_" scenario) [] now0 in
  let self := with_monitor self monitor in
  if negb ok then
    (self, ScenarioError "Compliance check failed" scenario)
  else if String.eqb scenario "gnss_sync_test" then
    (self, run_gnss_sync_test self)
  else if String.eqb scenario "compliance_audit" then
    let (self, a) := run_compliance_audit self clock now_local now_utc now in
    (self, Audited a)
  else
    (self, ScenarioError (String.append "Unknown scenario: " scenario)
                         scenario).

(** [shutdown]: the framework after it and the final report. *)
Definition shutdown (self : MNSFFramework) (now_local now_utc : string)
  : MNSFFramework * Report :=
  let self :=
    mkFramework (modules self) (compliance_monitor self) (gnss_sync self)
                false in
  let self :=
    fold_left (fun self module_name => fst (stop_module self module_name))
              (map fst (modules self)) self in
  (self,
   generate_compliance_report md5_hexdigest (compliance_monitor self)
                              now_local now_utc).

(** *** Histories of calls *)

Inductive fw_call : Type :=
| FwStart (module_name : string) (kwargs : parameters_t)
          (now_utc now_local : string) (env : StartEnv)
| FwStop (module_name : string)
| FwScenario (scenario now0 : string) (clock : nat -> string)
             (now_local now_utc now : string)
| FwThread (config : option string) (now : string)
| FwShutdown (now_local now_utc : string).

Definition fw_step (self : MNSFFramework) (c : fw_call) : MNSFFramework :=
  match c with
  | FwStart module_name kwargs now_utc now_local env =>
      fst (start_module self module_name kwargs now_utc now_local env)
  | FwStop module_name => fst (stop_module self module_name)
  | FwScenario scenario now0 clock now_local now_utc now =>
      fst (run_test_scenario self scenario now0 clock now_local now_utc now)
  | FwThread config now => compliance_thread self config now
  | FwShutdown now_local now_utc => fst (shutdown self now_local now_utc)
  end.

Definition fw_run (self : MNSFFramework) (cs : list fw_call) : MNSFFramework :=
  fold_left fw_step cs self.

End Framework.

(** *** Notions used in the statements *)

(** What a module is registered as: its key, name, description and
    whether it needs the compliance check. *)
Definition registry (self : MNSFFramework)
  : list (string * (string * string * bool)) :=
  map (fun km => (fst km, (name (snd km), description (snd km),
                           compliance_required (snd km))))
      (modules self).

(** Two frameworks with the same registry and the same configuration
    of the monitor. *)
Definition same_setup (s s' : MNSFFramework) : Prop :=
  registry s' = registry s /\
  rules (compliance_monitor s') = rules (compliance_monitor s) /\
  compliance_level (compliance_monitor s')
  = compliance_level (compliance_monitor s) /\
  standards (compliance_monitor s') = standards (compliance_monitor s).

(** The status of the module under a key. *)
Definition status_of (module_name : string) (self : MNSFFramework)
  : option ModuleStatus :=
  option_map status (lookup module_name (modules self)).

(** The keys of the modules that need the compliance check. *)
Definition checked_modules (self : MNSFFramework) : list string :=
  map fst (filter (fun km => compliance_required (snd km)) (modules self)).

(** Whether the module-specific part of [start_module] goes through. *)
Definition starts (module_name : string) (env : StartEnv) : bool :=
  if String.eqb module_name "gnss" then
    match gnss_ctor env with
    | Some _ => thread_starts env
    | None => false
    end
  else if String.eqb module_name "compliance" then thread_starts env
  else true.

(** *** Sample inputs *)

(** An outside world where the GNSS manager cannot be built, and one
    where everything starts. *)
Definition failing_env : StartEnv := mkStartEnv None true.
Definition working_env : StartEnv := mkStartEnv (Some Gnss.init) true.

Definition lab_framework : MNSFFramework := init lab_monitor.

Definition same_clock (i : nat) : string := t0.

End Framework.

(** * Properties of the GNSS module *)

Module GnssFacts.
Import Gnss.

(** The literals are the doubles nearest to the decimals. *)
Lemma literals_nearest :
  c_0_98 = decimal 98 100 /\ c_0_9 = decimal 9 10 /\
  c_0_001 = decimal 1 1000.
Proof. repeat split; vm_compute; reflexivity. Qed.

Lemma update_stores_sample (self : GNSSSyncManager) td pd :
  time_data (update_gnss_data self td pd) = Some td /\
  position_data (update_gnss_data self td pd) = Some pd.
Proof. split; reflexivity. Qed.

(** C2.  After [update_gnss_data] the status is a function of the
    sample's quality and uncertainty alone: LOCKED when quality > 0.98
    and uncertainty < 50, else TRACKING when quality > 0.9, else
    ACQUIRING, whatever the previous state, the position and the other
    fields of the sample; (0.99, 25) gives LOCKED, (0.92, 500)
    TRACKING, (0.85, 1000) and (0.70, 2000) ACQUIRING. *)
Theorem update_status_is_classification :
  (forall self td pd,
      status (update_gnss_data self td pd)
      = spec_classify (time_quality td) (uncertainty_ns td)) /\
  (forall self self' td td' pd pd',
      time_quality td = time_quality td' ->
      uncertainty_ns td = uncertainty_ns td' ->
      status (update_gnss_data self td pd)
      = status (update_gnss_data self' td' pd')) /\
  (forall self gps utc leap pd,
      status (update_gnss_data self
                (mkTimeData gps utc leap (decimal 99 100) (float_of_Z 25)) pd)
      = LOCKED /\
      status (update_gnss_data self
                (mkTimeData gps utc leap (decimal 92 100) (float_of_Z 500)) pd)
      = TRACKING /\
      status (update_gnss_data self
                (mkTimeData gps utc leap (decimal 85 100) (float_of_Z 1000)) pd)
      = ACQUIRING /\
      status (update_gnss_data self
                (mkTimeData gps utc leap (decimal 70 100) (float_of_Z 2000)) pd)
      = ACQUIRING).
Proof.
  assert (Hcls : forall self td pd,
             status (update_gnss_data self td pd)
             = spec_classify (time_quality td) (uncertainty_ns td)).
  { intros self td pd. unfold update_gnss_data, spec_classify. cbn [status].
    destruct literals_nearest as (<- & <- & _). reflexivity. }
  split; [exact Hcls|]. split.
  - intros self self' td td' pd pd' Hq Hu. rewrite !Hcls, Hq, Hu. reflexivity.
  - intros self gps utc leap pd. rewrite !Hcls. cbn [time_quality uncertainty_ns].
    repeat split; vm_compute; reflexivity.
Qed.

(** *** The NTP responder *)

Lemma pack_II_length a b out : pack_II a b = Ok out -> length out = 8%nat.
Proof.
  unfold pack_II. destruct (fits_u32 a && fits_u32 b); [|discriminate].
  intros [= <-]. reflexivity.
Qed.

Lemma time_to_ntp_length t out : time_to_ntp t = Ok out -> length out = 8%nat.
Proof.
  unfold time_to_ntp, bind.
  destruct (int_of_float t) as [seconds|]; [|discriminate].
  destruct (float_of_int seconds) as [fs|]; [|discriminate].
  destruct (int_of_float _) as [fraction|]; [|discriminate].
  apply pack_II_length.
Qed.

(** A list of eight elements, spelled out. *)
Lemma length_8_inv {A : Type} (l : list A) :
  length l = 8%nat ->
  exists a b c d e f g h, l = [a; b; c; d; e; f; g; h].
Proof.
  intros H.
  do 8 (destruct l as [|? l]; [discriminate H|]).
  destruct l; [|discriminate H]. repeat eexists.
Qed.

Lemma slice_length_8 (request : bytes) :
  (48 <= length request)%nat -> length (slice request 40 48) = 8%nat.
Proof.
  intros H. unfold slice. rewrite length_firstn, length_skipn. lia.
Qed.

(** X1.  Whenever [generate_ntp_response] returns, on a request of at
    least 48 bytes, the packet has 48 bytes, starts with 0x24 and echoes
    request bytes 40-48 at 24-32, with or without a sample. *)
Lemma ntp_response_shape self clock request response :
  (48 <= length request)%nat ->
  generate_ntp_response self clock request = Ok response ->
  length response = 48%nat /\
  index response 0 = Ok x24 /\
  slice response 24 32 = slice request 40 48.
Proof.
  intros Hlen. unfold generate_ntp_response.
  destruct request as [|r0 request']; [simpl in Hlen; lia|].
  cbn [index nth_error bind]. cbn [bytearray store].
  change (0 <? length (repeat x00 48))%nat with true. cbn iota.
  cbn [bind].
  destruct (time_to_ntp (fadd clock _)) as [tx|] eqn:Htx; [|discriminate].
  cbn [bind].
  destruct (length_8_inv _ (time_to_ntp_length _ _ Htx))
    as (t0 & t1 & t2 & t3 & t4 & t5 & t6 & t7 & ->).
  destruct (length_8_inv _ (slice_length_8 (r0 :: request') Hlen))
    as (o0 & o1 & o2 & o3 & o4 & o5 & o6 & o7 & Ho).
  rewrite Ho.
  destruct (time_to_ntp (fsub _ _)) as [rx|] eqn:Hrx.
  2:{ destruct (time_data self); cbn [bind];
      [destruct (time_to_ntp (fadd (gps_time _) _))|]; discriminate. }
  destruct (length_8_inv _ (time_to_ntp_length _ _ Hrx))
    as (x0 & x1 & x2 & x3 & x4 & x5 & x6 & x7 & ->).
  destruct (time_data self) as [td|]; cbn [bind].
  - destruct (time_to_ntp (fadd (gps_time td) _)) as [rf|] eqn:Hrf;
      [|discriminate].
    destruct (length_8_inv _ (time_to_ntp_length _ _ Hrf))
      as (f0 & f1 & f2 & f3 & f4 & f5 & f6 & f7 & ->).
    cbn [bind]. intros [= <-]. repeat split.
  - intros [= <-]. repeat split.
Qed.

(** The request matters only through its bytes 40-48. *)
Lemma ntp_response_request_slice self clock r1 r2 :
  r1 <> [] -> r2 <> [] ->
  slice r1 40 48 = slice r2 40 48 ->
  generate_ntp_response self clock r1 = generate_ntp_response self clock r2.
Proof.
  intros H1 H2 Hs. unfold generate_ntp_response.
  destruct r1 as [|a r1]; [contradiction|].
  destruct r2 as [|b r2]; [contradiction|].
  cbn [index nth_error bind]. rewrite Hs. reflexivity.
Qed.

(** C3.  The code at two inputs where no response comes out: with a
    sample whose reference time does not fit 32-bit seconds, and
    without a sample once the clock passes the end of the NTP era,
    [struct.pack] raises, and the server sends nothing back for a
    48-byte request. *)
Theorem ntp_response_raises_beyond_u32 :
  length zero_request = 48%nat /\
  generate_ntp_response (mkManager LOCKED (Some far_sample) None true)
                        clock_2025 zero_request = Raise StructError /\
  run_ntp_server (mkManager LOCKED (Some far_sample) None true)
                 clock_2025 zero_request = None /\
  generate_ntp_response init clock_2036 zero_request = Raise StructError /\
  run_ntp_server init clock_2036 zero_request = None /\
  (exists response,
      generate_ntp_response init clock_2025 zero_request = Ok response).
Proof.
  repeat split; try (vm_compute; reflexivity).
  eexists. vm_compute. reflexivity.
Qed.

(** C10.  Two requests of at least 48 bytes that agree on bytes 40-48
    get the same result from [generate_ntp_response] under the same
    manager state and clock reading: the same packet, byte for byte, or
    the same exception; byte 0 of the request, where version and mode
    are read, does not reach the output. *)
Theorem ntp_response_depends_on_origin_only self clock r1 r2 :
  (48 <= length r1)%nat -> (48 <= length r2)%nat ->
  slice r1 40 48 = slice r2 40 48 ->
  generate_ntp_response self clock r1 = generate_ntp_response self clock r2
  /\ run_ntp_server self clock r1 = run_ntp_server self clock r2.
Proof.
  intros H1 H2 Hs.
  assert (E : generate_ntp_response self clock r1
              = generate_ntp_response self clock r2).
  { apply ntp_response_request_slice; trivial.
    - intros ->. simpl in H1. lia.
    - intros ->. simpl in H2. lia. }
  split; [exact E|]. unfold run_ntp_server. rewrite E.
  apply Nat.leb_le in H1, H2. rewrite H1, H2. reflexivity.
Qed.

Lemma ntp_response_depends_on_origin_only_witness :
  generate_ntp_response init clock_2025 client_request
  = generate_ntp_response init clock_2025 zero_request
  /\ run_ntp_server init clock_2025 client_request
     = run_ntp_server init clock_2025 zero_request.
Proof.
  apply (ntp_response_depends_on_origin_only init clock_2025
           client_request zero_request).
  - unfold client_request. simpl. lia.
  - unfold zero_request. simpl. lia.
  - reflexivity.
Defined.

Lemma ntp_response_shape_witness :
  exists response,
    generate_ntp_response init clock_2025 client_request = Ok response /\
    length response = 48%nat /\
    index response 0 = Ok x24 /\
    slice response 24 32 = slice client_request 40 48.
Proof.
  destruct (generate_ntp_response init clock_2025 client_request)
    as [response|e] eqn:E; [|vm_compute in E; discriminate E].
  exists response. split; [reflexivity|].
  apply (ntp_response_shape init clock_2025 client_request response).
  - unfold client_request. simpl. lia.
  - exact E.
Defined.

(** X2.  A datagram shorter than 48 bytes gets no response. *)
Lemma short_request_dropped self clock data :
  (length data < 48)%nat -> run_ntp_server self clock data = None.
Proof.
  intros H. unfold run_ntp_server.
  apply Nat.leb_gt in H. rewrite H. reflexivity.
Qed.

Lemma short_request_dropped_witness :
  run_ntp_server init clock_2025 [x1b] = None.
Proof.
  apply (short_request_dropped init clock_2025 [x1b]). simpl. lia.
Defined.

End GnssFacts.

(** * Properties of the compliance monitor *)

Module ComplianceFacts.
Import Compliance.

(** *** Lists and windows *)

Lemma last_n_length {A : Type} (n : nat) (l : list A) :
  length (last_n n l) = Nat.min n (length l).
Proof. unfold last_n. rewrite length_skipn. lia. Qed.

Lemma last_n_snoc {A : Type} (n : nat) (l : list A) (x : A) :
  last_n (S n) (l ++ [x]) = last_n n l ++ [x].
Proof.
  unfold last_n. rewrite length_app, skipn_app. cbn [length].
  replace (length l + 1 - S n)%nat with (length l - n)%nat by lia.
  replace (length l - n - length l)%nat with 0%nat by lia.
  reflexivity.
Qed.

Lemma filter_length_le {A : Type} (p : A -> bool) (l : list A) :
  (length (filter p l) <= length l)%nat.
Proof.
  induction l as [|a l IH]; cbn [filter length]; [lia|].
  destruct (p a); cbn [length]; lia.
Qed.

(** The entries of a window are entries of the log. *)
Lemma count_window_le {A : Type} (p : A -> bool) (n : nat) (l : list A) :
  (length (filter p (last_n n l)) <= length (filter p l))%nat.
Proof.
  unfold last_n. rewrite <- (firstn_skipn (length l - n) l) at 3.
  rewrite filter_app, length_app. lia.
Qed.

Lemma count_partition {A : Type} (p : A -> bool) (l : list A) :
  (count_if p l + count_if (fun x => negb (p x)) l = length l)%nat.
Proof.
  unfold count_if. induction l as [|a l IH]; cbn [filter length]; [lia|].
  destruct (p a); cbn [negb length]; lia.
Qed.

Lemma recent_count_snoc (n : nat) (op : string) log (e : LogEntry) :
  recent_count (S n) op (log ++ [e])
  = (recent_count n op log + (if entry_is op e then 1 else 0))%nat.
Proof.
  unfold recent_count. rewrite last_n_snoc, filter_app, length_app.
  cbn [filter]. destruct (entry_is op e); reflexivity.
Qed.

Section Monitor.

Variable md5_hexdigest : string -> string.
Variable json_dumps : parameters_t -> string.

Abbreviation evaluate := (evaluate md5_hexdigest json_dumps).
Abbreviation check_operation := (check_operation md5_hexdigest json_dumps).
Abbreviation enforce_compliance := (enforce_compliance md5_hexdigest json_dumps).
Abbreviation run := (run md5_hexdigest json_dumps).
Abbreviation step := (step md5_hexdigest json_dumps).
Abbreviation is_violation_of := (is_violation_of md5_hexdigest json_dumps).

(** *** The verdict in closed form *)

Lemma rules_loop self op params rs cr :
  fold_left
    (fun cr rule =>
       if negb (_check_rule self rule op params)
       then fail cr (rule_violation rule) else cr) rs cr
  = mkCheckResult (operation cr) (parameters cr) (timestamp cr)
      (compliant cr && forallb (fun rule => _check_rule self rule op params) rs)
      (violations cr ++
         map rule_violation
           (filter (fun rule => negb (_check_rule self rule op params)) rs))
      (operation_id cr).
Proof.
  revert cr. induction rs as [|rule rs IH]; intros cr; cbn [fold_left].
  - cbn [forallb filter map]. rewrite andb_true_r, app_nil_r.
    destruct cr; reflexivity.
  - rewrite IH. cbn [forallb filter].
    destruct (_check_rule self rule op params); cbn [negb].
    + reflexivity.
    + cbn [fail operation parameters timestamp compliant violations
             operation_id map andb].
      rewrite andb_false_r, <- app_assoc. reflexivity.
Qed.

Lemma evaluate_closed_form self op params now :
  evaluate self op params now
  = mkCheckResult op params now
      (forallb (fun rule => _check_rule self rule op params) (rules self)
       && gpp_passes self op params)
      (rule_violations self op params
       ++ if gpp_passes self op params then [] else [gpp_violation op])
      (md5_hexdigest (String.append op (json_dumps params))).
Proof.
  unfold Compliance.evaluate, gpp_passes, rule_violations.
  rewrite rules_loop.
  cbn [operation parameters timestamp compliant violations operation_id
         andb app].
  destruct (lookup op (requirements (standards self))) as [reqs|].
  - destruct (_check_3gpp_requirement self op params); cbn [negb].
    + rewrite andb_true_r, app_nil_r. reflexivity.
    + unfold fail.
      cbn [operation parameters timestamp compliant violations operation_id].
      rewrite andb_false_r. reflexivity.
  - rewrite andb_true_r, app_nil_r. reflexivity.
Qed.

(** The verdict reads the configuration, never the two logs. *)
Lemma evaluate_config self self' op params now :
  rules self = rules self' ->
  compliance_level self = compliance_level self' ->
  standards self = standards self' ->
  evaluate self op params now = evaluate self' op params now.
Proof.
  intros Hr Hl Hs. rewrite !evaluate_closed_form.
  unfold gpp_passes, rule_violations, _check_3gpp_requirement, _check_rule,
    frequency_violated, power_violated, _get_allowed_bands.
  rewrite Hr, Hl, Hs. reflexivity.
Qed.

(** *** What the calls do to the monitor *)

Lemma check_operation_state self op params now :
  let v := evaluate self op params now in
  check_operation self op params now
  = (mkMonitor (rules self)
       (if compliant v then violations_log self
        else violations_log self ++ [CheckEntry v])
       (compliance_level self)
       (operations_log self ++ [v])
       (standards self),
     compliant v).
Proof.
  cbv zeta. unfold Compliance.check_operation.
  destruct (compliant (evaluate self op params now)); reflexivity.
Qed.

Lemma enforce_compliance_state self op params now :
  fst (enforce_compliance self op params now)
  = fst (check_operation self op params now).
Proof.
  unfold Compliance.enforce_compliance.
  destruct (check_operation self op params now) as [self' ok].
  destruct ok; [reflexivity|].
  destruct (3 <=? _)%nat; reflexivity.
Qed.

Lemma step_config self c :
  rules (step self c) = rules self /\
  compliance_level (step self c) = compliance_level self /\
  standards (step self c) = standards self.
Proof.
  destruct c as [op params now|op params now|config now|nl nu];
    cbn [Compliance.step].
  - rewrite check_operation_state. repeat split.
  - rewrite enforce_compliance_state, check_operation_state. repeat split.
  - unfold monitor_gnss_operation. destruct config as [config|];
      [|repeat split].
    destruct (negb _); repeat split.
  - repeat split.
Qed.

Lemma run_config self cs :
  rules (run self cs) = rules self /\
  compliance_level (run self cs) = compliance_level self /\
  standards (run self cs) = standards self.
Proof.
  unfold Compliance.run. revert self.
  induction cs as [|c cs IH]; intros self; cbn [fold_left]; [repeat split|].
  destruct (IH (step self c)) as (-> & -> & ->). apply step_config.
Qed.

Lemma step_violations_log self c op :
  count_if (entry_is op) (violations_log (step self c))
  = (count_if (entry_is op) (violations_log self)
     + if is_violation_of self op c then 1 else 0)%nat.
Proof.
  unfold count_if.
  destruct c as [op' params now|op' params now|config now|nl nu];
    cbn [Compliance.step Compliance.is_violation_of].
  1,2: rewrite ?enforce_compliance_state, check_operation_state;
    cbn [fst violations_log];
    destruct (compliant (evaluate self op' params now)) eqn:Hc;
    cbn [negb]; rewrite ?andb_false_r, ?andb_true_r; [lia|];
    rewrite filter_app, length_app; cbn [filter entry_is];
    rewrite evaluate_closed_form; cbn [operation];
    destruct (String.eqb op' op); reflexivity.
  - unfold monitor_gnss_operation. destruct config as [config|];
      cbn [fst]; [|lia].
    destruct (negb _); cbn [fst violations_log]; [|lia].
    rewrite filter_app, length_app. cbn [filter entry_is length]. lia.
  - lia.
Qed.

Lemma is_violation_of_config self self' op c :
  rules self = rules self' ->
  compliance_level self = compliance_level self' ->
  standards self = standards self' ->
  is_violation_of self op c = is_violation_of self' op c.
Proof.
  intros Hr Hl Hs.
  destruct c as [op' params now|op' params now|config now|nl nu];
    cbn [Compliance.is_violation_of]; try reflexivity;
    rewrite (evaluate_config self self') by assumption; reflexivity.
Qed.

(** The entries of the violation log for [op] are the earlier
    non-compliant checks of [op], one each. *)
Lemma run_violations_log self cs op :
  count_if (entry_is op) (violations_log (run self cs))
  = (count_if (entry_is op) (violations_log self)
     + count_if (is_violation_of self op) cs)%nat.
Proof.
  unfold Compliance.run. revert self.
  induction cs as [|c cs IH]; intros self; cbn [fold_left].
  - unfold count_if at 3. cbn [filter length]. lia.
  - rewrite IH, step_violations_log.
    destruct (step_config self c) as (Hr & Hl & Hs).
    replace (count_if (is_violation_of (step self c) op) cs)
      with (count_if (is_violation_of self op) cs).
    + unfold count_if at 4. cbn [filter].
      destruct (is_violation_of self op c); cbn [length];
        fold (count_if (is_violation_of self op) cs); lia.
    + unfold count_if. f_equal. apply filter_ext. intros c'.
      symmetry. apply is_violation_of_config; assumption.
Qed.

(** The audit trail holds one entry per audited call. *)
Lemma run_operations_log self cs :
  length (operations_log (run self cs))
  = (length (operations_log self) + count_if is_audited cs)%nat.
Proof.
  unfold Compliance.run. revert self.
  induction cs as [|c cs IH]; intros self; cbn [fold_left].
  - unfold count_if. cbn [filter length]. lia.
  - rewrite IH. unfold count_if. cbn [filter].
    destruct c as [op params now|op params now|config now|nl nu];
      cbn [Compliance.step is_audited length].
    1,2: rewrite ?enforce_compliance_state, check_operation_state;
      cbn [fst operations_log]; rewrite length_app; cbn [length]; lia.
    + unfold monitor_gnss_operation. destruct config as [config|];
        cbn [fst]; [|lia].
      destruct (negb _); cbn [fst operations_log]; lia.
    + lia.
Qed.

Lemma window_grows_by_one {A : Type} (p : A -> bool) (k : nat) (l : list A) :
  (length (filter p (skipn k l)) <= S (length (filter p (skipn (S k) l))))%nat.
Proof.
  revert l. induction k as [|k IH]; intros [|a l]; cbn [skipn filter length];
    try lia.
  - destruct (p a); cbn [length]; lia.
  - apply IH.
Qed.

Lemma recent_count_step (n : nat) (op : string) (log : list LogEntry) :
  (recent_count (S n) op log <= S (recent_count n op log))%nat.
Proof.
  unfold recent_count, last_n.
  destruct (Nat.le_gt_cases (length log) n) as [Hle|Hgt].
  - replace (length log - S n)%nat with 0%nat by lia.
    replace (length log - n)%nat with 0%nat by lia. lia.
  - replace (length log - n)%nat with (S (length log - S n)) by lia.
    apply window_grows_by_one.
Qed.

(** The decision, read off the log that [check_operation] leaves. *)
Lemma enforce_compliance_decision self op params now :
  let v := evaluate self op params now in
  let recent :=
    filter (entry_is op)
           (last_n 10 (violations_log
                         (fst (enforce_compliance self op params now)))) in
  snd (enforce_compliance self op params now)
  = if compliant v then
      mkDecision true proceed "Operation compliant with regulations" None
    else if (3 <=? length recent)%nat then
      mkDecision false block "Operation blocked due to multiple violations"
                 (Some recent)
    else
      mkDecision true warn "Operation allowed with compliance warning"
                 (Some recent).
Proof.
  cbv zeta. rewrite enforce_compliance_state.
  unfold Compliance.enforce_compliance.
  rewrite check_operation_state. cbv zeta. cbn [fst].
  destruct (compliant (evaluate self op params now)); [reflexivity|].
  cbn [violations_log].
  destruct (3 <=? _)%nat; reflexivity.
Qed.

(** *** The window, in the words of the specification *)

Abbreviation logged := (logged md5_hexdigest json_dumps).
Abbreviation logged_history := (logged_history md5_hexdigest json_dumps).

Lemma last_n_most_recent {A : Type} (n : nat) (l : list A) :
  last_n n l = spec_most_recent n l.
Proof.
  unfold last_n, spec_most_recent. rewrite firstn_rev, rev_involutive.
  reflexivity.
Qed.

Lemma spec_most_recent_map {A B : Type} (f : A -> B) (n : nat) (l : list A) :
  map f (spec_most_recent n l) = spec_most_recent n (map f l).
Proof.
  unfold spec_most_recent. rewrite map_rev, <- firstn_map, map_rev.
  reflexivity.
Qed.

Lemma count_entries (op : string) (l : list LogEntry) :
  length (filter (entry_is op) l)
  = spec_count_for op (map spec_operation_of l).
Proof.
  unfold spec_count_for.
  induction l as [|[c|g] l IH]; cbn [filter map spec_operation_of count_occ];
    [reflexivity| |].
  - cbn [entry_is].
    destruct (String.eqb_spec (operation c) op) as [E|E];
      destruct (name_eq_dec (Some (operation c)) (Some op)) as [E'|E'];
      cbn [length]; try congruence.
  - cbn [entry_is].
    destruct (name_eq_dec None (Some op)); [discriminate|exact IH].
Qed.

Lemma recent_count_spec (n : nat) (op : string) (log : list LogEntry) :
  recent_count n op log
  = spec_count_for op (spec_most_recent n (map spec_operation_of log)).
Proof.
  unfold recent_count.
  rewrite count_entries, last_n_most_recent, spec_most_recent_map.
  reflexivity.
Qed.

Lemma logged_config self self' c :
  rules self = rules self' ->
  compliance_level self = compliance_level self' ->
  standards self = standards self' ->
  logged self c = logged self' c.
Proof.
  intros Hr Hl Hs.
  destruct c as [op params now|op params now|[config|] now|nl nu];
    cbn [Compliance.logged]; try reflexivity.
  1,2: rewrite (evaluate_config self self') by assumption; reflexivity.
  unfold monitor_gnss_operation.
  destruct (negb _); reflexivity.
Qed.

Lemma step_logged self c :
  map spec_operation_of (violations_log (step self c))
  = map spec_operation_of (violations_log self) ++ logged self c.
Proof.
  destruct c as [op params now|op params now|[config|] now|nl nu];
    cbn [Compliance.step Compliance.logged].
  1,2: rewrite ?enforce_compliance_state, check_operation_state;
    cbv zeta; cbn [fst violations_log];
    destruct (compliant (evaluate self op params now)) eqn:Hc;
    [rewrite app_nil_r; reflexivity|];
    rewrite map_app; cbn [map spec_operation_of];
    rewrite evaluate_closed_form; reflexivity.
  - unfold monitor_gnss_operation.
    destruct (negb _) eqn:E; cbn [fst snd violations_log].
    + apply negb_true_iff in E. rewrite E, map_app. reflexivity.
    + apply negb_false_iff in E. rewrite E, app_nil_r. reflexivity.
  - rewrite app_nil_r. reflexivity.
  - rewrite app_nil_r. reflexivity.
Qed.

(** The names in the violation log are those logged over the history. *)
Lemma run_logged self cs :
  map spec_operation_of (violations_log (run self cs))
  = map spec_operation_of (violations_log self) ++ logged_history self cs.
Proof.
  unfold Compliance.run, Compliance.logged_history. revert self.
  induction cs as [|c cs IH]; intros self; cbn [fold_left flat_map].
  - rewrite app_nil_r. reflexivity.
  - rewrite IH, step_logged, <- app_assoc. f_equal. f_equal.
    destruct (step_config self c) as (Hr & Hl & Hs).
    apply flat_map_ext. intros c'. apply logged_config; assumption.
Qed.

(** *** The enforcement gate *)

Lemma enforce_compliance_cases self op params now :
  let v := evaluate self op params now in
  let self' := fst (enforce_compliance self op params now) in
  let d := snd (enforce_compliance self op params now) in
  (compliant v = true -> allowed d = true /\ action d = proceed) /\
  (compliant v = false ->
   ((3 <= recent_count 10 op (violations_log self'))%nat ->
    allowed d = false /\ action d = block) /\
   ((recent_count 10 op (violations_log self') < 3)%nat ->
    allowed d = true /\ action d = warn) /\
   ((3 <= recent_count 10 op (violations_log self))%nat ->
    action d = block) /\
   ((count_if (entry_is op) (violations_log self) < 2)%nat ->
    action d = warn)) /\
  (forall rs lvl stds cs,
      self = run (fresh rs lvl stds) cs ->
      compliant v = false ->
      (count_if (is_violation_of (fresh rs lvl stds) op) cs < 2)%nat ->
      action d = warn).
Proof.
  intros v self' d.
  assert (Hd := enforce_compliance_decision self op params now).
  cbv zeta in Hd. fold v self' d in Hd.
  fold (recent_count 10 op (violations_log self')) in Hd.
  assert (Hlog : compliant v = false ->
                 recent_count 10 op (violations_log self')
                 = S (recent_count 9 op (violations_log self))).
  { intros Hc. unfold self'.
    rewrite enforce_compliance_state, check_operation_state.
    cbv zeta. fold v. rewrite Hc. cbn [fst violations_log].
    rewrite recent_count_snoc. cbn [entry_is]. unfold v.
    rewrite evaluate_closed_form. cbn [operation].
    rewrite String.eqb_refl. lia. }
  assert (Hwarn : compliant v = false ->
                  (count_if (entry_is op) (violations_log self) < 2)%nat ->
                  action d = warn).
  { intros Hc Hn. rewrite Hd, Hc.
    assert (H9 := count_window_le (entry_is op) 9 (violations_log self)).
    fold (recent_count 9 op (violations_log self)) in H9.
    unfold count_if in Hn.
    destruct (Nat.leb_spec 3 (recent_count 10 op (violations_log self')));
      [rewrite (Hlog Hc) in *; lia|reflexivity]. }
  split; [|split].
  - intros Hc. rewrite Hd, Hc. split; reflexivity.
  - intros Hc. repeat split.
    + rewrite Hd, Hc. apply Nat.leb_le in H. rewrite H. reflexivity.
    + rewrite Hd, Hc. apply Nat.leb_le in H. rewrite H. reflexivity.
    + rewrite Hd, Hc. apply Nat.leb_gt in H. rewrite H. reflexivity.
    + rewrite Hd, Hc. apply Nat.leb_gt in H. rewrite H. reflexivity.
    + intros H3. rewrite Hd, Hc.
      assert (Hs := recent_count_step 9 op (violations_log self)).
      destruct (Nat.leb_spec 3 (recent_count 10 op (violations_log self')));
        [reflexivity|rewrite (Hlog Hc) in *; lia].
    + apply Hwarn, Hc.
  - intros rs lvl stds cs Hself Hc Hn. apply Hwarn; [exact Hc|].
    rewrite Hself, run_violations_log. cbn [fresh violations_log].
    unfold count_if at 1. cbn [filter length]. exact Hn.
Qed.

(** C1.  [enforce_compliance] evaluates the request first.  A compliant
    verdict gives allowed = true, action = proceed.  A non-compliant one
    is decided by the number of entries for this operation among the 10
    most recent entries of the violation log: 3 or more give allowed =
    false, action = block, fewer give allowed = true, action = warn.  In
    particular, once 3 entries for the operation stand among the last 10
    logged violations, the next non-compliant call is blocked; and a
    non-compliant call made when fewer than two violations of the
    operation have been logged, so the first and the second such call in
    any history of a fresh monitor, gets a warning.  The window and the
    count are also stated in the words of the specification, on the
    operation names of the log and on the names that the calls of a
    history have logged: a request is blocked exactly when, with its own
    entry, 3 or more of the 10 most recent names are its operation. *)
Theorem enforce_compliance_policy :
  forall self op params now,
    let v := evaluate self op params now in
    let self' := fst (enforce_compliance self op params now) in
    let d := snd (enforce_compliance self op params now) in
    (compliant v = true -> allowed d = true /\ action d = proceed) /\
    (compliant v = false ->
     ((3 <= recent_count 10 op (violations_log self'))%nat ->
      allowed d = false /\ action d = block) /\
     ((recent_count 10 op (violations_log self') < 3)%nat ->
      allowed d = true /\ action d = warn) /\
     ((3 <= recent_count 10 op (violations_log self))%nat ->
      action d = block) /\
     ((count_if (entry_is op) (violations_log self) < 2)%nat ->
      action d = warn)) /\
    (forall rs lvl stds cs,
        self = run (fresh rs lvl stds) cs ->
        compliant v = false ->
        (count_if (is_violation_of (fresh rs lvl stds) op) cs < 2)%nat ->
        action d = warn) /\
    (compliant v = false ->
     let names := map spec_operation_of (violations_log self) in
     let names' := map spec_operation_of (violations_log self') in
     names' = names ++ [Some op] /\
     ((3 <= spec_count_for op (spec_most_recent 10 names'))%nat ->
      allowed d = false /\ action d = block) /\
     ((spec_count_for op (spec_most_recent 10 names') < 3)%nat ->
      allowed d = true /\ action d = warn) /\
     ((3 <= spec_count_for op (spec_most_recent 10 names))%nat ->
      action d = block) /\
     ((spec_count_for op names < 2)%nat -> action d = warn)) /\
    (forall rs lvl stds cs,
        self = run (fresh rs lvl stds) cs ->
        compliant v = false ->
        let names := logged_history (fresh rs lvl stds) cs in
        ((3 <= spec_count_for op (spec_most_recent 10 (names ++ [Some op])))%nat ->
         allowed d = false /\ action d = block) /\
        ((spec_count_for op (spec_most_recent 10 (names ++ [Some op])) < 3)%nat ->
         allowed d = true /\ action d = warn) /\
        ((3 <= spec_count_for op (spec_most_recent 10 names))%nat ->
         action d = block) /\
        ((spec_count_for op names < 2)%nat -> action d = warn)).
Proof.
  intros self op params now v self' d.
  destruct (enforce_compliance_cases self op params now) as (H1 & H2 & H3).
  fold v self' d in H1, H2, H3.
  assert (Hnames : compliant v = false ->
                   map spec_operation_of (violations_log self')
                   = map spec_operation_of (violations_log self) ++ [Some op]).
  { intros Hc. unfold self'.
    rewrite enforce_compliance_state, check_operation_state.
    cbv zeta. fold v. rewrite Hc. cbn [fst violations_log].
    rewrite map_app. cbn [map spec_operation_of]. unfold v.
    rewrite evaluate_closed_form. reflexivity. }
  assert (Hspec : compliant v = false ->
            ((3 <= spec_count_for op
                     (spec_most_recent 10
                        (map spec_operation_of (violations_log self'))))%nat ->
             allowed d = false /\ action d = block) /\
            ((spec_count_for op
                (spec_most_recent 10
                   (map spec_operation_of (violations_log self'))) < 3)%nat ->
             allowed d = true /\ action d = warn) /\
            ((3 <= spec_count_for op
                     (spec_most_recent 10
                        (map spec_operation_of (violations_log self))))%nat ->
             action d = block) /\
            ((spec_count_for op (map spec_operation_of (violations_log self))
              < 2)%nat -> action d = warn)).
  { intros Hc. destruct (H2 Hc) as (Hb & Hw & Hb' & Hw').
    rewrite !recent_count_spec in Hb, Hw, Hb'.
    unfold count_if in Hw'. rewrite count_entries in Hw'.
    repeat split; auto; try (apply Hb; assumption); try (apply Hw; assumption). }
  split; [exact H1|]. split; [exact H2|]. split; [exact H3|]. split.
  - intros Hc. cbv zeta. split; [exact (Hnames Hc)|exact (Hspec Hc)].
  - intros rs lvl stds cs Hself Hc. cbv zeta.
    assert (Hlog : map spec_operation_of (violations_log self)
                   = logged_history (fresh rs lvl stds) cs).
    { rewrite Hself, run_logged. reflexivity. }
    destruct (Hspec Hc) as (Hb & Hw & Hb' & Hw').
    rewrite (Hnames Hc), Hlog in Hb, Hw. rewrite Hlog in Hb', Hw'.
    repeat split; auto; try (apply Hb; assumption); try (apply Hw; assumption).
Qed.

(** C9.  On a non-compliant request the verdict is appended to the
    violation log before the window of 10 is read, so the count includes
    the request itself: it is one more than the number of entries for the
    operation among the last 9 of the log as it was.  With 2 such entries
    among the last 9, the call is blocked. *)
Theorem gate_counts_current_violation :
  forall self op params now,
    compliant (evaluate self op params now) = false ->
    let v := evaluate self op params now in
    let self' := fst (enforce_compliance self op params now) in
    let d := snd (enforce_compliance self op params now) in
    violations_log self' = violations_log self ++ [CheckEntry v] /\
    recent_count 10 op (violations_log self')
    = S (recent_count 9 op (violations_log self)) /\
    ((2 <= recent_count 9 op (violations_log self))%nat ->
     allowed d = false /\ action d = block /\
     d_violations d
     = Some (filter (entry_is op) (last_n 9 (violations_log self))
             ++ [CheckEntry v])).
Proof.
  intros self op params now Hc v self' d.
  assert (Hl : violations_log self' = violations_log self ++ [CheckEntry v]).
  { unfold self'. rewrite enforce_compliance_state, check_operation_state.
    cbv zeta. rewrite Hc. reflexivity. }
  assert (He : entry_is op (CheckEntry v) = true).
  { cbn [entry_is]. unfold v. rewrite evaluate_closed_form. cbn [operation].
    apply String.eqb_refl. }
  assert (Hn : recent_count 10 op (violations_log self')
               = S (recent_count 9 op (violations_log self))).
  { rewrite Hl, recent_count_snoc, He. lia. }
  split; [exact Hl|]. split; [exact Hn|].
  intros H2.
  assert (Hd := enforce_compliance_decision self op params now).
  cbv zeta in Hd. fold v self' d in Hd. unfold v in Hd at 1.
  rewrite Hc in Hd.
  fold (recent_count 10 op (violations_log self')) in Hd.
  rewrite Hn in Hd.
  replace (3 <=? S (recent_count 9 op (violations_log self)))%nat
    with true in Hd by (symmetry; apply Nat.leb_le; lia).
  rewrite Hd. cbn [allowed action d_violations]. repeat split.
  rewrite Hl, last_n_snoc, filter_app. cbn [filter]. rewrite He. reflexivity.
Qed.

(** *** The report *)

(** C8.  Whatever the two logs hold, the summary of the report gives
    their exact sizes: total_operations is the length of the audit
    trail, which from a fresh monitor is the number of audited calls,
    compliant and non-compliant operations add up to it, total_violations
    is the length of the violation log; operations_analysis and
    violations are the last 100 and the last 50 entries, so at most 100
    and 50. *)
Theorem report_counts_and_bounds :
  forall self now_local now_utc,
    let r := generate_compliance_report md5_hexdigest self now_local now_utc in
    total_operations (summary r) = length (operations_log self) /\
    (compliant_operations (summary r) + non_compliant_operations (summary r)
     = total_operations (summary r))%nat /\
    total_violations (summary r) = length (violations_log self) /\
    length (operations_analysis r)
    = Nat.min 100 (length (operations_log self)) /\
    (length (operations_analysis r) <= 100)%nat /\
    length (r_violations r) = Nat.min 50 (length (violations_log self)) /\
    (length (r_violations r) <= 50)%nat /\
    (forall rs lvl stds cs,
        self = run (fresh rs lvl stds) cs ->
        total_operations (summary r) = count_if is_audited cs).
Proof.
  intros self now_local now_utc r. unfold r, generate_compliance_report.
  cbn [summary total_operations compliant_operations non_compliant_operations
         total_violations operations_analysis r_violations].
  rewrite !last_n_length.
  repeat split; try lia.
  - apply count_partition.
  - intros rs lvl stds cs ->. rewrite run_operations_log.
    cbn [fresh operations_log length]. lia.
Qed.

(** *** The rule checks *)

Lemma check_rule_any_rule self rule rule' op params :
  _check_rule self rule op params = _check_rule self rule' op params.
Proof. reflexivity. Qed.

Lemma rules_all_fail self op params :
  frequency_violated self params = true \/ power_violated self params = true ->
  rules self <> [] ->
  forallb (fun rule => _check_rule self rule op params) (rules self) = false
  /\ rule_violations self op params = map rule_violation (rules self).
Proof.
  intros Hv Hne.
  assert (Hf : forall rule, _check_rule self rule op params = false).
  { intros rule. unfold _check_rule.
    destruct Hv as [-> | Hp]; [reflexivity|].
    rewrite Hp. destruct (frequency_violated self params); reflexivity. }
  unfold rule_violations. split.
  - destruct (rules self) as [|rule rs]; [contradiction|].
    cbn [forallb]. rewrite Hf. reflexivity.
  - f_equal. induction (rules self) as [|rule rs IH]; [reflexivity|].
    cbn [filter]. rewrite Hf. cbn [negb]. f_equal.
    destruct rs as [|rule' rs']; [reflexivity|]. apply IH. discriminate.
Qed.

Lemma rules_all_pass self op params :
  frequency_violated self params = false ->
  power_violated self params = false ->
  forallb (fun rule => _check_rule self rule op params) (rules self) = true
  /\ rule_violations self op params = [].
Proof.
  intros Hf Hp.
  assert (Ht : forall rule, _check_rule self rule op params = true).
  { intros rule. unfold _check_rule. rewrite Hf, Hp. reflexivity. }
  unfold rule_violations. split.
  - apply forallb_forall. intros rule _. apply Ht.
  - induction (rules self) as [|rule rs IH]; [reflexivity|].
    cbn [filter]. rewrite Ht. cbn [negb]. exact IH.
Qed.

(** C6.  At a level other than LAB the set of allowed bands is empty, so
    for a request that carries a frequency, whatever its value, the
    frequency check fails; with at least one rule loaded every rule is
    violated and the verdict is non-compliant. *)
Theorem non_lab_frequency_always_fails :
  forall self op params now freq,
    compliance_level self <> LAB ->
    rules self <> [] ->
    lookup "frequency" params = Some freq ->
    _get_allowed_bands self = [] /\
    frequency_violated self params = true /\
    (forall rule, _check_rule self rule op params = false) /\
    compliant (evaluate self op params now) = false /\
    snd (check_operation self op params now) = false /\
    (exists vs,
        violations (evaluate self op params now)
        = map rule_violation (rules self) ++ vs).
Proof.
  intros self op params now freq Hlvl Hne Hfreq.
  assert (Hb : _get_allowed_bands self = []).
  { unfold _get_allowed_bands.
    destruct (compliance_level self); [contradiction| |]; reflexivity. }
  assert (Hv : frequency_violated self params = true).
  { unfold frequency_violated. rewrite Hfreq, Hb. reflexivity. }
  destruct (rules_all_fail self op params (or_introl Hv) Hne) as (Hall & Hrv).
  assert (Hc : compliant (evaluate self op params now) = false).
  { rewrite evaluate_closed_form. cbn [compliant]. rewrite Hall. reflexivity. }
  repeat split; trivial.
  - intros rule. unfold _check_rule. rewrite Hv. reflexivity.
  - rewrite evaluate_closed_form. cbn [violations]. rewrite Hrv.
    eexists. reflexivity.
Qed.

(** *** The 3GPP check *)

Lemma spec_violated_iff spec value :
  spec_violated spec value = true <->
  (exists lo, spec_min spec = Some lo /\ num_ltb value lo = true) \/
  (exists hi, spec_max spec = Some hi /\ num_gtb value hi = true) \/
  (exists vs, spec_allowed spec = Some vs /\
              forall x, In x vs -> num_eqb value x = false).
Proof.
  unfold spec_violated. rewrite !orb_true_iff. split.
  - intros [[H|H]|H].
    + destruct (spec_min spec) as [lo|]; [|discriminate]. left. eauto.
    + destruct (spec_max spec) as [hi|]; [|discriminate]. right. left. eauto.
    + destruct (spec_allowed spec) as [vs|]; [|discriminate].
      right. right. exists vs. split; [reflexivity|]. intros x Hx.
      apply negb_true_iff in H.
      destruct (num_eqb value x) eqn:E; [|reflexivity].
      assert (existsb (num_eqb value) vs = true)
        by (apply existsb_exists; eauto).
      congruence.
  - intros [(lo & -> & H)|[(hi & -> & H)|(vs & -> & H)]].
    + left. left. exact H.
    + left. right. exact H.
    + right. apply negb_true_iff.
      destruct (existsb (num_eqb value) vs) eqn:E; [|reflexivity].
      apply existsb_exists in E. destruct E as (x & Hx & Ex).
      rewrite (H x Hx) in Ex. discriminate.
Qed.

Lemma check_items_false_iff items params :
  check_items items params = false <->
  exists param spec value,
    In (param, spec) items /\ lookup param params = Some value /\
    spec_violated spec value = true.
Proof.
  induction items as [|[param spec] rest IH]; cbn [check_items].
  - split; [discriminate|]. intros (? & ? & ? & [] & _).
  - destruct (lookup param params) as [value|] eqn:Hl.
    + destruct (spec_violated spec value) eqn:Hv.
      * split; [|reflexivity]. intros _. exists param, spec, value.
        repeat split; trivial. left. reflexivity.
      * rewrite IH. split.
        -- intros (p' & s' & v' & Hin & H). exists p', s', v'.
           split; [right; exact Hin|exact H].
        -- intros (p' & s' & v' & [Heq|Hin] & Hl' & Hv').
           ++ injection Heq as <- <-. congruence.
           ++ exists p', s', v'. auto.
    + rewrite IH. split.
      * intros (p' & s' & v' & Hin & H). exists p', s', v'.
        split; [right; exact Hin|exact H].
      * intros (p' & s' & v' & [Heq|Hin] & Hl' & Hv').
        -- injection Heq as <- <-. congruence.
        -- exists p', s', v'. auto.
Qed.

(** C7.  For an operation of the requirement table, the 3GPP check fails
    exactly when some parameter that the request and the table entry both
    have is below its min, above its max, or outside its allowed list,
    each only where the field is given.  A failure makes the verdict
    non-compliant and adds one entry, with rule id 3GPP_VIOLATION, after
    the entries of the rules, however many parameters fail; a pass adds
    none. *)
Theorem gpp_requirement_check :
  forall self op params now reqs,
    lookup op (requirements (standards self)) = Some reqs ->
    let v := evaluate self op params now in
    (_check_3gpp_requirement self op params = false <->
     exists param spec value,
       In (param, spec) reqs /\ lookup param params = Some value /\
       ((exists lo, spec_min spec = Some lo /\ num_ltb value lo = true) \/
        (exists hi, spec_max spec = Some hi /\ num_gtb value hi = true) \/
        (exists vs, spec_allowed spec = Some vs /\
                    forall x, In x vs -> num_eqb value x = false))) /\
    (_check_3gpp_requirement self op params = false ->
     compliant v = false /\
     violations v = rule_violations self op params ++ [gpp_violation op] /\
     rule_id (gpp_violation op) = "3GPP_VIOLATION"%string) /\
    (_check_3gpp_requirement self op params = true ->
     violations v = rule_violations self op params).
Proof.
  intros self op params now reqs Hop v. split; [|split].
  - unfold _check_3gpp_requirement. rewrite Hop, check_items_false_iff.
    split; intros (param & spec & value & Hin & Hl & Hv);
      exists param, spec, value; repeat split; trivial;
      apply spec_violated_iff; exact Hv.
  - intros Hf. unfold v. rewrite evaluate_closed_form.
    cbn [compliant violations]. unfold gpp_passes. rewrite Hop, Hf.
    rewrite andb_false_r. repeat split.
  - intros Ht. unfold v. rewrite evaluate_closed_form.
    cbn [violations]. unfold gpp_passes. rewrite Hop, Ht.
    apply app_nil_r.
Qed.

(** *** The LAB bands *)

Lemma lab_bands self :
  compliance_level self = LAB ->
  _get_allowed_bands self
  = [ (PyFloat (float_of_Z 1565420000), PyFloat (float_of_Z 1585420000));
      (PyFloat (float_of_Z 2400000000), PyFloat (float_of_Z 2483500000));
      (PyInt 0, PyFloat (float_of_Z 1000000000)) ].
Proof.
  intros H. unfold _get_allowed_bands. rewrite H. cbn [is_lab].
  repeat f_equal; vm_compute; reflexivity.
Qed.

(** C4, as the code has it.  At level LAB with a rule loaded, the request
    {frequency: 1575420000, tx_power: -30} passes both checks of every
    rule and is compliant whenever the 3GPP step adds nothing for the
    operation; the request {frequency: 940000000, tx_power: 20} is
    non-compliant, by the power check alone: 940 MHz lies in the LAB band
    from 0 to 1 GHz, so the frequency check passes. *)
Theorem lab_reference_requests :
  forall self op now,
    compliance_level self = LAB ->
    rules self <> [] ->
    frequency_violated self gps_params = false /\
    power_violated self gps_params = false /\
    (gpp_passes self op gps_params = true ->
     compliant (evaluate self op gps_params now) = true /\
     violations (evaluate self op gps_params now) = []) /\
    frequency_violated self gsm_params = false /\
    power_violated self gsm_params = true /\
    (forall rule, _check_rule self rule op gsm_params = false) /\
    compliant (evaluate self op gsm_params now) = false.
Proof.
  intros self op now Hlvl Hne.
  assert (F1 : frequency_violated self gps_params = false).
  { unfold frequency_violated. rewrite (lab_bands self Hlvl).
    vm_compute. reflexivity. }
  assert (P1 : power_violated self gps_params = false).
  { unfold power_violated. rewrite Hlvl. vm_compute. reflexivity. }
  assert (F2 : frequency_violated self gsm_params = false).
  { unfold frequency_violated. rewrite (lab_bands self Hlvl).
    vm_compute. reflexivity. }
  assert (P2 : power_violated self gsm_params = true).
  { unfold power_violated. rewrite Hlvl. vm_compute. reflexivity. }
  destruct (rules_all_pass self op gps_params F1 P1) as (Hall1 & Hrv1).
  destruct (rules_all_fail self op gsm_params (or_intror P2) Hne)
    as (Hall2 & _).
  split; [exact F1|]. split; [exact P1|]. split.
  { intros Hg. rewrite evaluate_closed_form. cbn [compliant violations].
    rewrite Hall1, Hrv1, Hg. split; reflexivity. }
  split; [exact F2|]. split; [exact P2|]. split.
  { intros rule. unfold _check_rule. rewrite F2, P2. reflexivity. }
  rewrite evaluate_closed_form. cbn [compliant]. rewrite Hall2. reflexivity.
Qed.

(** *** Determinism *)

(** C5, as the code has it.  Two evaluations under the same rules, level
    and requirement table, of the same request, give verdicts that agree
    on the operation, the parameters, the compliant flag, the list of
    violations and the operation id, whatever the two logs hold; the
    timestamp is the clock reading of each evaluation, so the verdicts
    are equal when the readings are. *)
Theorem verdict_determined_up_to_timestamp :
  forall self1 self2 op params now1 now2,
    rules self1 = rules self2 ->
    compliance_level self1 = compliance_level self2 ->
    standards self1 = standards self2 ->
    let v1 := evaluate self1 op params now1 in
    let v2 := evaluate self2 op params now2 in
    operation v1 = operation v2 /\
    parameters v1 = parameters v2 /\
    compliant v1 = compliant v2 /\
    violations v1 = violations v2 /\
    operation_id v1 = operation_id v2 /\
    timestamp v1 = now1 /\ timestamp v2 = now2 /\
    (now1 = now2 -> v1 = v2).
Proof.
  intros self1 self2 op params now1 now2 Hr Hl Hs v1 v2.
  assert (E : forall now, evaluate self1 op params now
                          = evaluate self2 op params now)
    by (intros now; apply evaluate_config; assumption).
  unfold v1, v2. rewrite E, !evaluate_closed_form.
  cbn [operation parameters compliant violations operation_id timestamp].
  repeat split. intros ->. reflexivity.
Qed.

End Monitor.

(** *** The statements at sample inputs *)

(** C4, against the claim: at level LAB with one rule loaded, the
    frequency check of {frequency: 940000000, tx_power: 20} is not
    violated, so the two checks are not both violated; and
    {frequency: 1575420000, tx_power: -30} is non-compliant for an
    operation whose table entry caps the frequency at 1 GHz. *)
Lemma lab_940MHz_within_band :
  compliance_level lab_monitor = LAB /\
  rules lab_monitor <> [] /\
  frequency_violated lab_monitor gsm_params = false /\
  ~ (frequency_violated lab_monitor gsm_params = true /\
     power_violated lab_monitor gsm_params = true) /\
  compliant (evaluate plain_digest keys_dumps lab_monitor
               "narrowband_receive" gps_params t0)
  = false.
Proof.
  split; [reflexivity|]. split; [discriminate|].
  split; [vm_compute; reflexivity|]. split.
  - intros [H _]. vm_compute in H. discriminate.
  - vm_compute. reflexivity.
Qed.

Lemma lab_reference_requests_witness :
  compliant (evaluate plain_digest keys_dumps lab_monitor
               "gnss_receive" gps_params t0) = true
  /\ compliant (evaluate plain_digest keys_dumps lab_monitor
                  "transmit_signal" gsm_params t0)
     = false.
Proof.
  destruct (lab_reference_requests plain_digest keys_dumps lab_monitor
              "gnss_receive" t0)
    as (_ & _ & H & _); [reflexivity|discriminate|].
  destruct (lab_reference_requests plain_digest keys_dumps lab_monitor
              "transmit_signal" t0)
    as (_ & _ & _ & _ & _ & _ & H'); [reflexivity|discriminate|].
  split; [apply H; reflexivity|exact H'].
Defined.

(** C5, against the claim: the same request under the same
    configuration, evaluated at two clock readings, gives two verdicts
    that differ. *)
Lemma verdict_timestamp_differs :
  evaluate plain_digest keys_dumps lab_monitor "gnss_receive" gps_params
           t0
  <> evaluate plain_digest keys_dumps lab_monitor "gnss_receive" gps_params
              t1.
Proof.
  intros H. apply (f_equal timestamp) in H. vm_compute in H. discriminate H.
Qed.

Lemma verdict_determined_up_to_timestamp_witness :
  compliant (evaluate plain_digest keys_dumps lab_monitor
               "transmit_signal" gsm_params t0)
  = compliant (evaluate plain_digest keys_dumps warned_twice
                 "transmit_signal" gsm_params t2)
  /\ violations (evaluate plain_digest keys_dumps lab_monitor
                   "transmit_signal" gsm_params t0)
     = violations (evaluate plain_digest keys_dumps warned_twice
                     "transmit_signal" gsm_params t2).
Proof.
  destruct (verdict_determined_up_to_timestamp plain_digest keys_dumps
              lab_monitor warned_twice "transmit_signal" gsm_params t0 t2)
    as (_ & _ & Hc & Hv & _); [reflexivity|reflexivity|reflexivity|].
  split; [exact Hc|exact Hv].
Defined.

Lemma non_lab_frequency_always_fails_witness :
  compliant (evaluate plain_digest keys_dumps test_monitor
               "gnss_receive" gps_params t0) = false.
Proof.
  destruct (non_lab_frequency_always_fails plain_digest keys_dumps
              test_monitor "gnss_receive" gps_params t0 (PyInt 1575420000))
    as (_ & _ & _ & H & _);
    [discriminate|discriminate|reflexivity|exact H].
Defined.

Lemma gpp_requirement_check_witness :
  violations (evaluate plain_digest keys_dumps lab_monitor
                "signal_analyze" narrow_params t0)
  = [gpp_violation "signal_analyze"].
Proof.
  destruct (gpp_requirement_check plain_digest keys_dumps lab_monitor
              "signal_analyze" narrow_params t0 _ eq_refl)
    as (_ & H & _).
  destruct H as (_ & H & _); [vm_compute; reflexivity|exact H].
Defined.

Lemma gate_counts_current_violation_witness :
  action (snd (enforce_compliance plain_digest keys_dumps warned_twice
                 "transmit_signal" gsm_params t2)) = block.
Proof.
  destruct (gate_counts_current_violation plain_digest keys_dumps
              warned_twice "transmit_signal" gsm_params t2)
    as (_ & _ & H); [vm_compute; reflexivity|].
  destruct H as (_ & H & _); [vm_compute; lia|exact H].
Defined.

Lemma enforce_compliance_policy_witness :
  action (snd (enforce_compliance plain_digest keys_dumps lab_monitor
                 "transmit_signal" gsm_params t0)) = warn
  /\ action (snd (enforce_compliance plain_digest keys_dumps lab_monitor
                    "gnss_receive" gps_params t0)) = proceed
  /\ action (snd (enforce_compliance plain_digest keys_dumps
                    (run plain_digest keys_dumps lab_monitor
                       (firstn 2 three_attempts))
                    "transmit_signal" gsm_params t1)) = warn
  /\ action (snd (enforce_compliance plain_digest keys_dumps
                    (run plain_digest keys_dumps lab_monitor
                       (firstn 4 three_attempts))
                    "transmit_signal" gsm_params t2)) = block
  /\ allowed (snd (enforce_compliance plain_digest keys_dumps
                     (run plain_digest keys_dumps lab_monitor three_attempts)
                     "transmit_signal" gsm_params t2)) = false
  /\ action (snd (enforce_compliance plain_digest keys_dumps
                    (run plain_digest keys_dumps lab_monitor three_attempts)
                    "transmit_signal" gsm_params t2)) = block.
Proof.
  split; [|split; [|split; [|split]]].
  - destruct (enforce_compliance_policy plain_digest keys_dumps lab_monitor
                "transmit_signal" gsm_params t0) as (_ & H & _).
    destruct H as (_ & _ & _ & H); [vm_compute; reflexivity|].
    apply H. vm_compute. lia.
  - destruct (enforce_compliance_policy plain_digest keys_dumps lab_monitor
                "gnss_receive" gps_params t0) as (H & _).
    apply H. vm_compute. reflexivity.
  - destruct (enforce_compliance_policy plain_digest keys_dumps
                (run plain_digest keys_dumps lab_monitor
                   (firstn 2 three_attempts))
                "transmit_signal" gsm_params t1) as (_ & _ & _ & _ & H).
    destruct (H [sample_rule] LAB sample_standards (firstn 2 three_attempts)
                eq_refl) as (_ & Hw & _); [vm_compute; reflexivity|].
    apply Hw. vm_compute. lia.
  - destruct (enforce_compliance_policy plain_digest keys_dumps
                (run plain_digest keys_dumps lab_monitor
                   (firstn 4 three_attempts))
                "transmit_signal" gsm_params t2) as (_ & _ & _ & _ & H).
    destruct (H [sample_rule] LAB sample_standards (firstn 4 three_attempts)
                eq_refl) as (Hb & _); [vm_compute; reflexivity|].
    apply Hb. vm_compute. lia.
  - destruct (enforce_compliance_policy plain_digest keys_dumps
                (run plain_digest keys_dumps lab_monitor three_attempts)
                "transmit_signal" gsm_params t2) as (_ & _ & _ & _ & H).
    destruct (H [sample_rule] LAB sample_standards three_attempts eq_refl)
      as (_ & _ & Hb & _); [vm_compute; reflexivity|].
    split.
    + destruct (H [sample_rule] LAB sample_standards three_attempts eq_refl)
        as (Hb4 & _); [vm_compute; reflexivity|].
      apply Hb4. vm_compute. lia.
    + apply Hb. vm_compute. lia.
Defined.

Lemma report_counts_and_bounds_witness :
  total_operations
    (summary (generate_compliance_report plain_digest warned_twice t2 t2))
  = 2%nat.
Proof.
  destruct (report_counts_and_bounds plain_digest keys_dumps
              warned_twice t2 t2) as (_ & _ & _ & _ & _ & _ & _ & H).
  rewrite (H [sample_rule] LAB sample_standards
             [ CallEnforce "transmit_signal" gsm_params t0;
               CallGnss (Some "LAB MODE ENABLED"%string) t0;
               CallEnforce "transmit_signal" gsm_params t1 ] eq_refl).
  reflexivity.
Defined.

End ComplianceFacts.

(** * Further properties of the GNSS module *)

Module GnssMore.
Import Gnss.

(** *** Big-endian words *)

Lemma Z_of_byte_of_Z (z : Z) : Z_of_byte (byte_of_Z z) = z mod 256.
Proof.
  unfold Z_of_byte, byte_of_Z.
  assert (Hm : 0 <= z mod 256 < 256) by (apply Z.mod_pos_bound; lia).
  destruct (Byte.of_N (Z.to_N (z mod 256))) as [b|] eqn:E.
  - apply Stdlib.Strings.Byte.to_of_N in E. rewrite E. lia.
  - apply Stdlib.Strings.Byte.of_N_None_iff in E. lia.
Qed.

Lemma be_decode_be32 (n : Z) :
  0 <= n < 2 ^ 32 -> be_decode (be32 n) = n.
Proof.
  intros H. unfold be_decode, be32. cbn [fold_left].
  rewrite !Z_of_byte_of_Z, !Z.shiftr_div_pow2 by lia.
  change (2 ^ 24) with 16777216. change (2 ^ 16) with 65536.
  change (2 ^ 8) with 256. change (2 ^ 32) with 4294967296 in H.
  Z.div_mod_to_equations. lia.
Qed.

Lemma be_decode_be64 (n : Z) :
  0 <= n < 2 ^ 64 -> be_decode (be64 n) = n.
Proof.
  intros H. unfold be_decode, be64. cbn [fold_left].
  rewrite !Z_of_byte_of_Z, !Z.shiftr_div_pow2 by lia.
  change (2 ^ 56) with 72057594037927936.
  change (2 ^ 48) with 281474976710656.
  change (2 ^ 40) with 1099511627776.
  change (2 ^ 32) with 4294967296.
  change (2 ^ 24) with 16777216. change (2 ^ 16) with 65536.
  change (2 ^ 8) with 256.
  change (2 ^ 64) with 18446744073709551616 in H.
  Z.div_mod_to_equations. lia.
Qed.

Lemma fits_u32_spec (n : Z) : fits_u32 n = true <-> 0 <= n < 2 ^ 32.
Proof.
  unfold fits_u32. rewrite andb_true_iff, Z.leb_le, Z.leb_le.
  change (2 ^ 32) with 4294967296. lia.
Qed.

Lemma fits_u64_spec (n : Z) : fits_u64 n = true <-> 0 <= n < 2 ^ 64.
Proof.
  unfold fits_u64. rewrite andb_true_iff, Z.leb_le, Z.leb_le.
  change (2 ^ 64) with 18446744073709551616. lia.
Qed.

(** *** [time_to_ntp] *)

Lemma time_to_ntp_inv t out :
  time_to_ntp t = Ok out ->
  exists seconds fseconds fraction,
    int_of_float t = Ok seconds /\
    float_of_int seconds = Ok fseconds /\
    int_of_float (fmul (fsub t fseconds) (float_of_Z (2 ^ 32))) = Ok fraction /\
    pack_II seconds fraction = Ok out.
Proof.
  unfold time_to_ntp, bind.
  destruct (int_of_float t) as [seconds|] eqn:E1; [|discriminate].
  destruct (float_of_int seconds) as [fseconds|] eqn:E2; [|discriminate].
  destruct (int_of_float (fmul (fsub t fseconds) (float_of_Z (2 ^ 32))))
    as [fraction|] eqn:E3; [|discriminate].
  intros H. exists seconds, fseconds, fraction. repeat split; assumption.
Qed.

(** X3.  When [time_to_ntp] returns, it returns 8 bytes whose first
    four, read as a big-endian number, are [int(timestamp)], which then
    lies in [0, 2^32), and whose last four are a fraction in the same
    range.  For a timestamp whose integer part is outside that range,
    and for a NaN or an infinity, it raises. *)
Theorem time_to_ntp_round_trip :
  (forall t out,
      time_to_ntp t = Ok out ->
      exists seconds fraction,
        int_of_float t = Ok seconds /\
        0 <= seconds < 2 ^ 32 /\ 0 <= fraction < 2 ^ 32 /\
        out = be32 seconds ++ be32 fraction /\
        be_decode (firstn 4 out) = seconds /\
        be_decode (skipn 4 out) = fraction) /\
  (forall t seconds,
      int_of_float t = Ok seconds ->
      ~ 0 <= seconds < 2 ^ 32 ->
      exists e, time_to_ntp t = Raise e) /\
  (forall s, time_to_ntp (S754_infinity s) = Raise OverflowError) /\
  time_to_ntp S754_nan = Raise ValueError.
Proof.
  split; [|split; [|split]].
  - intros t out H.
    destruct (time_to_ntp_inv t out H) as (s & fs & f & Hs & _ & _ & Hp).
    unfold pack_II in Hp.
    destruct (fits_u32 s) eqn:E1; [|discriminate].
    destruct (fits_u32 f) eqn:E2; [|discriminate].
    cbn [andb] in Hp. injection Hp as <-.
    apply fits_u32_spec in E1, E2.
    exists s, f. repeat split; try tauto.
    + cbn [firstn]. exact (be_decode_be32 s E1).
    + cbn [skipn]. exact (be_decode_be32 f E2).
  - intros t s Hs Hr. unfold time_to_ntp. rewrite Hs. cbn [bind].
    destruct (float_of_int s) as [fs|e]; cbn [bind];
      [|eexists; reflexivity].
    destruct (int_of_float (fmul (fsub t fs) (float_of_Z (2 ^ 32))))
      as [f|e]; cbn [bind]; [|eexists; reflexivity].
    unfold pack_II.
    destruct (fits_u32 s) eqn:E; [apply fits_u32_spec in E; tauto|].
    cbn [andb]. eexists; reflexivity.
  - intros s. reflexivity.
  - reflexivity.
Qed.

Lemma time_to_ntp_round_trip_witness :
  exists out,
    time_to_ntp (fadd clock_2025 (float_of_Z 2208988800)) = Ok out /\
    be_decode (firstn 4 out) = 3971278800.
Proof.
  destruct (time_to_ntp (fadd clock_2025 (float_of_Z 2208988800)))
    as [out|e] eqn:E; [|vm_compute in E; discriminate E].
  exists out. split; [reflexivity|].
  destruct (proj1 time_to_ntp_round_trip _ out E)
    as (s & f & Hs & _ & _ & _ & Hd & _).
  rewrite Hd. vm_compute in Hs. injection Hs as <-. reflexivity.
Defined.

(** *** The whole NTP packet *)

Lemma slice_assign_length (b : bytes) (lo hi : nat) (v : bytes) :
  length (slice_assign b lo hi v)
  = (Nat.min lo (length b) + length v + (length b - Nat.max lo hi))%nat.
Proof.
  unfold slice_assign. rewrite !length_app, length_firstn, length_skipn. lia.
Qed.

(** X4.  The layout of a response to a request of at least 48 bytes:
    0x24, fifteen zero bytes, the reference timestamp (eight zero bytes
    without a sample, else the encoding of the sample's GPS time plus
    315964800), the request's bytes 40-48, the receive timestamp (the
    clock plus 2208988800, less 0.001) and the transmit timestamp (the
    clock plus 2208988800). *)
Theorem ntp_packet_layout self clock request response :
  (48 <= length request)%nat ->
  generate_ntp_response self clock request = Ok response ->
  exists tx rx ref,
    time_to_ntp (fadd clock (float_of_Z 2208988800)) = Ok tx /\
    time_to_ntp (fsub (fadd clock (float_of_Z 2208988800)) c_0_001) = Ok rx /\
    match time_data self with
    | Some td =>
        time_to_ntp (fadd (gps_time td) (float_of_Z 315964800)) = Ok ref
    | None => ref = repeat x00 8
    end /\
    response
    = x24 :: repeat x00 15 ++ ref ++ slice request 40 48 ++ rx ++ tx.
Proof.
  intros Hlen. unfold generate_ntp_response.
  destruct request as [|r0 request']; [simpl in Hlen; lia|].
  cbn [index nth_error bind]. cbn [bytearray store].
  change (0 <? length (repeat x00 48))%nat with true. cbn iota.
  cbn [bind].
  destruct (time_to_ntp (fadd clock _)) as [tx|] eqn:Htx; [|discriminate].
  cbn [bind].
  destruct (GnssFacts.length_8_inv _ (GnssFacts.time_to_ntp_length _ _ Htx))
    as (t0 & t1 & t2 & t3 & t4 & t5 & t6 & t7 & ->).
  destruct (GnssFacts.length_8_inv _
              (GnssFacts.slice_length_8 (r0 :: request') Hlen))
    as (o0 & o1 & o2 & o3 & o4 & o5 & o6 & o7 & Ho).
  rewrite Ho.
  destruct (time_to_ntp (fsub _ _)) as [rx|] eqn:Hrx.
  2:{ destruct (time_data self); cbn [bind];
      [destruct (time_to_ntp (fadd (gps_time _) _))|]; discriminate. }
  destruct (GnssFacts.length_8_inv _ (GnssFacts.time_to_ntp_length _ _ Hrx))
    as (x0 & x1 & x2 & x3 & x4 & x5 & x6 & x7 & ->).
  destruct (time_data self) as [td|]; cbn [bind].
  - destruct (time_to_ntp (fadd (gps_time td) _)) as [rf|] eqn:Hrf;
      [|discriminate].
    destruct (GnssFacts.length_8_inv _ (GnssFacts.time_to_ntp_length _ _ Hrf))
      as (f0 & f1 & f2 & f3 & f4 & f5 & f6 & f7 & ->).
    cbn [bind]. intros [= <-].
    eexists _, _, _. repeat split.
  - intros [= <-]. eexists _, _, _. repeat split.
Qed.

Lemma ntp_packet_layout_witness :
  exists response ref,
    generate_ntp_response (update_gnss_data init good_sample sample_position)
                          clock_2025 client_request = Ok response /\
    time_to_ntp (fadd (gps_time good_sample) (float_of_Z 315964800)) = Ok ref /\
    slice response 16 24 = ref.
Proof.
  destruct (generate_ntp_response
              (update_gnss_data init good_sample sample_position)
              clock_2025 client_request) as [response|e] eqn:E;
    [|vm_compute in E; discriminate E].
  destruct (ntp_packet_layout
              (update_gnss_data init good_sample sample_position)
              clock_2025 client_request response)
    as (tx & rx & ref & _ & _ & Href & ->);
    [unfold client_request; simpl; lia|exact E|].
  cbn [time_data update_gnss_data] in Href.
  exists (x24 :: repeat x00 15 ++ ref ++ slice client_request 40 48 ++ rx ++ tx),
    ref.
  split; [reflexivity|]. split; [exact Href|].
  destruct (GnssFacts.length_8_inv _ (GnssFacts.time_to_ntp_length _ _ Href))
    as (f0 & f1 & f2 & f3 & f4 & f5 & f6 & f7 & ->).
  reflexivity.
Defined.

(** The response as the sequence of slice assignments that builds it. *)
Lemma generate_ntp_response_inv self clock request response :
  generate_ntp_response self clock request = Ok response ->
  exists tx rx ref,
    length tx = 8%nat /\ length rx = 8%nat /\ length ref = 8%nat /\
    response
    = slice_assign
        (slice_assign
           (match time_data self with
            | Some _ =>
                slice_assign
                  (slice_assign (x24 :: repeat x00 47) 40 48 tx) 16 24 ref
            | None => slice_assign (x24 :: repeat x00 47) 40 48 tx
            end)
           24 32 (slice request 40 48))
        32 40 rx.
Proof.
  unfold generate_ntp_response.
  destruct (index request 0) as [b0|]; [|discriminate].
  cbn [bind]. cbn [bytearray store].
  change (0 <? length (repeat x00 48))%nat with true. cbn iota.
  cbn [bind].
  destruct (time_to_ntp (fadd clock (float_of_Z 2208988800)))
    as [tx|] eqn:Htx; [|discriminate].
  cbn [bind].
  destruct (time_data self) as [td|]; cbn [bind].
  - destruct (time_to_ntp (fadd (gps_time td) (float_of_Z 315964800)))
      as [rf|] eqn:Hrf; [|discriminate].
    cbn [bind].
    destruct (time_to_ntp (fsub (fadd clock (float_of_Z 2208988800)) c_0_001))
      as [rx|] eqn:Hx; [|discriminate].
    cbn [bind]. intros [= <-]. exists tx, rx, rf.
    repeat split; eauto using GnssFacts.time_to_ntp_length.
  - destruct (time_to_ntp (fsub (fadd clock (float_of_Z 2208988800)) c_0_001))
      as [rx|] eqn:Hx; [|discriminate].
    cbn [bind]. intros [= <-]. exists tx, rx, (repeat x00 8).
    repeat split; eauto using GnssFacts.time_to_ntp_length.
Qed.

(** X5.  [generate_ntp_response] called on its own, without the length
    test of the server loop: an empty request raises IndexError; a
    non-empty request shorter than 48 bytes gets, when anything, a packet
    shorter than 48 bytes, of 40 bytes plus the number of request bytes
    beyond the 40th. *)
Theorem ntp_short_request_shrinks_packet :
  (forall self clock, generate_ntp_response self clock [] = Raise IndexError)
  /\
  (forall self clock request response,
      (length request < 48)%nat ->
      generate_ntp_response self clock request = Ok response ->
      length response = (40 + (length request - 40))%nat /\
      (length response < 48)%nat).
Proof.
  split; [reflexivity|].
  intros self clock request response Hlen H.
  destruct (generate_ntp_response_inv self clock request response H)
    as (tx & rx & ref & Htx & Hrx & Hrf & ->).
  destruct (time_data self) as [td|];
    rewrite !slice_assign_length, ?Htx, ?Hrf, ?Hrx;
    change (length (x24 :: repeat x00 47)) with 48%nat;
    unfold slice; rewrite length_firstn, length_skipn; lia.
Qed.

Lemma ntp_short_request_shrinks_packet_witness :
  exists response,
    generate_ntp_response init clock_2025 short_request = Ok response /\
    length response = 44%nat.
Proof.
  destruct (generate_ntp_response init clock_2025 short_request)
    as [response|e] eqn:E; [|vm_compute in E; discriminate E].
  exists response. split; [reflexivity|].
  destruct (proj2 ntp_short_request_shrinks_packet init clock_2025
              short_request response) as (H & _);
    [unfold short_request; simpl; lia|exact E|].
  rewrite H. reflexivity.
Defined.

(** *** The PTP announcer *)

Lemma create_ptp_sync_message_inv self message :
  create_ptp_sync_message self = Ok message ->
  exists correction,
    match time_data self with
    | Some td => int_of_float (fmul (uncertainty_ns td) c_1e9) = Ok correction
    | None => correction = 0
    end /\
    0 <= correction < 2 ^ 64 /\
    message = [x10; x02] ++ repeat x00 6 ++ be64 correction ++ repeat x00 28.
Proof.
  unfold create_ptp_sync_message.
  change (store (bytearray 44) 0 x10) with (Ok (x10 :: repeat x00 43)).
  cbn [bind].
  change (store (x10 :: repeat x00 43) 1 x02)
    with (Ok (x10 :: x02 :: repeat x00 42)).
  cbn [bind].
  set (corr := match time_data self with
               | Some td => int_of_float (fmul (uncertainty_ns td) c_1e9)
               | None => Ok 0
               end).
  destruct corr as [c|] eqn:Hc; [|discriminate]. cbn [bind].
  unfold pack_Q. destruct (fits_u64 c) eqn:Hf; [|discriminate].
  cbn [bind]. intros [= <-]. exists c. split; [|split].
  - subst corr. destruct (time_data self); [exact Hc|congruence].
  - apply fits_u64_spec, Hf.
  - reflexivity.
Qed.

(** X6.  A PTP sync message, when one is built, has 44 bytes: 0x10,
    0x02, six zero bytes, the correction as a big-endian 64-bit number
    and 28 zero bytes; the correction is the integer part of the
    sample's uncertainty times 1e9 (0 without a sample), and reading
    bytes 8-16 back gives it.  A correction that is negative or does not
    fit 64 bits makes [struct.pack] raise instead. *)
Theorem ptp_sync_message_layout :
  (forall self message,
      create_ptp_sync_message self = Ok message ->
      exists correction,
        match time_data self with
        | Some td =>
            int_of_float (fmul (uncertainty_ns td) c_1e9) = Ok correction
        | None => correction = 0
        end /\
        0 <= correction < 2 ^ 64 /\
        message
        = [x10; x02] ++ repeat x00 6 ++ be64 correction ++ repeat x00 28 /\
        length message = 44%nat /\
        be_decode (slice message 8 16) = correction) /\
  (forall self td correction,
      time_data self = Some td ->
      int_of_float (fmul (uncertainty_ns td) c_1e9) = Ok correction ->
      ~ 0 <= correction < 2 ^ 64 ->
      create_ptp_sync_message self = Raise StructError).
Proof.
  split.
  - intros self message H.
    destruct (create_ptp_sync_message_inv self message H)
      as (c & Hc & Hr & ->).
    exists c. repeat split; try tauto.
    change (slice ([x10; x02] ++ repeat x00 6 ++ be64 c ++ repeat x00 28) 8 16)
      with (be64 c).
    apply be_decode_be64, Hr.
  - intros self td c Htd Hc Hr. unfold create_ptp_sync_message.
    change (store (bytearray 44) 0 x10) with (Ok (x10 :: repeat x00 43)).
    cbn [bind].
    change (store (x10 :: repeat x00 43) 1 x02)
      with (Ok (x10 :: x02 :: repeat x00 42)).
    cbn [bind]. rewrite Htd, Hc. cbn [bind]. unfold pack_Q.
    destruct (fits_u64 c) eqn:Hf; [apply fits_u64_spec in Hf; tauto|].
    reflexivity.
Qed.

Lemma ptp_sync_message_layout_witness :
  exists message,
    create_ptp_sync_message (update_gnss_data init good_sample sample_position)
    = Ok message /\
    be_decode (slice message 8 16) = 25500000000.
Proof.
  destruct (create_ptp_sync_message
              (update_gnss_data init good_sample sample_position))
    as [message|e] eqn:E; [|vm_compute in E; discriminate E].
  exists message. split; [reflexivity|].
  destruct (proj1 ptp_sync_message_layout _ message E)
    as (c & Hc & _ & _ & _ & Hd).
  rewrite Hd. vm_compute in Hc. injection Hc as <-. reflexivity.
Defined.

Lemma update_locked_inv self td pd :
  status (update_gnss_data self td pd) = LOCKED ->
  fgtb (time_quality td) c_0_98 = true /\
  fltb (uncertainty_ns td) c_50 = true.
Proof.
  unfold update_gnss_data. cbn [status].
  destruct (fgtb (time_quality td) c_0_98); cbn [andb].
  - destruct (fltb (uncertainty_ns td) c_50); [auto|].
    destruct (fgtb _ c_0_9); discriminate.
  - destruct (fgtb _ c_0_9); discriminate.
Qed.

(** X7.  [run_ptp_server] builds a message only for a manager that is
    LOCKED and holds a sample.  After [update_gnss_data], a message is
    built only if the sample has quality above 0.98 and uncertainty
    below 50, and its bytes 8-16 then hold the integer part of the
    uncertainty times 1e9; before any update none is built. *)
Theorem ptp_announces_only_when_locked :
  (forall self m,
      run_ptp_server self = Some m ->
      status self = LOCKED /\
      exists td, time_data self = Some td /\
                 create_ptp_sync_message self = Ok m) /\
  (forall self td pd m,
      run_ptp_server (update_gnss_data self td pd) = Some m ->
      fgtb (time_quality td) c_0_98 = true /\
      fltb (uncertainty_ns td) c_50 = true /\
      exists correction,
        int_of_float (fmul (uncertainty_ns td) c_1e9) = Ok correction /\
        0 <= correction < 2 ^ 64 /\
        be_decode (slice m 8 16) = correction) /\
  run_ptp_server init = None.
Proof.
  assert (H1 : forall self m,
             run_ptp_server self = Some m ->
             status self = LOCKED /\
             exists td, time_data self = Some td /\
                        create_ptp_sync_message self = Ok m).
  { intros self m. unfold run_ptp_server.
    destruct (status self); try discriminate.
    destruct (time_data self) as [td|]; [|discriminate].
    destruct (create_ptp_sync_message self) as [msg|]; [|discriminate].
    intros [= <-]. split; [reflexivity|]. exists td. auto. }
  split; [exact H1|]. split; [|reflexivity].
  intros self td pd m H.
  destruct (H1 _ m H) as (Hs & td' & Htd & Hm).
  destruct (update_locked_inv self td pd Hs) as (Hq & Hu).
  split; [exact Hq|]. split; [exact Hu|].
  destruct (create_ptp_sync_message_inv _ m Hm) as (c & Hc & Hr & ->).
  cbn [time_data update_gnss_data] in Hc.
  exists c. split; [exact Hc|]. split; [exact Hr|].
  change (slice ([x10; x02] ++ repeat x00 6 ++ be64 c ++ repeat x00 28) 8 16)
    with (be64 c).
  apply be_decode_be64, Hr.
Qed.

Lemma ptp_announces_only_when_locked_witness :
  exists m,
    run_ptp_server (update_gnss_data init good_sample sample_position)
    = Some m /\
    status (update_gnss_data init good_sample sample_position) = LOCKED.
Proof.
  destruct (run_ptp_server (update_gnss_data init good_sample sample_position))
    as [m|] eqn:E; [|vm_compute in E; discriminate E].
  exists m. split; [reflexivity|].
  exact (proj1 (proj1 ptp_announces_only_when_locked _ m E)).
Defined.

(** *** The timing self-check *)

Lemma SFcompare_positive (m1 : positive) (e1 : Z) (m2 : positive) (e2 : Z) :
  SFcompare (S754_finite false m1 e1) (S754_finite false m2 e2)
  = Some match Z.compare e1 e2 with
         | Lt => Lt
         | Gt => Gt
         | Eq => Pos.compare m1 m2
         end.
Proof. reflexivity. Qed.

Lemma below_50_not_above_100 (u : float) :
  fltb u c_50 = true -> fgtb u c_100 = false.
Proof.
  assert (E50 : c_50 = S754_finite false 7036874417766400 (-47))
    by (vm_compute; reflexivity).
  assert (E100 : c_100 = S754_finite false 7036874417766400 (-46))
    by (vm_compute; reflexivity).
  rewrite E50, E100. unfold fltb, fgtb, SFltb.
  destruct u as [s|s| |s m e].
  - reflexivity.
  - destruct s; intros H; [reflexivity|discriminate H].
  - intros H; discriminate H.
  - destruct s; [reflexivity|].
    rewrite !SFcompare_positive.
    destruct (Z.compare_spec e (-47)); destruct (Z.compare_spec (-46) e);
      intros Hu; try reflexivity; try discriminate Hu; lia.
Qed.

Lemma above_0_98_not_below_0_95 (q : float) :
  fgtb q c_0_98 = true -> fltb q c_0_95 = false.
Proof.
  unfold fltb, fgtb, SFltb, c_0_98, c_0_95.
  destruct q as [s|s| |s m e].
  - intros H; discriminate H.
  - destruct s; intros H; [discriminate H|reflexivity].
  - intros H; discriminate H.
  - destruct s; [intros Hq; discriminate Hq|].
    rewrite !SFcompare_positive.
    destruct (Z.compare_spec (-53) e); destruct (Z.compare_spec e (-53));
      try lia; intros Hq; try reflexivity; try discriminate Hq.
    destruct (Pos.compare_spec 8827055269646172 m) as [|Hlo|];
      try discriminate Hq.
    destruct (Pos.compare_spec m 8556839292003942) as [|Hhi|];
      try reflexivity.
    assert (C := Pos.lt_trans _ _ _ Hlo Hhi). vm_compute in C. discriminate C.
Qed.

(** X8.  A sample that makes [update_gnss_data] set the status LOCKED
    passes the two timing tests of [check_compliance]: for a manager
    without a frequency-stability figure the check writes no record and
    returns True. *)
Theorem locked_sample_passes_timing_check :
  forall str_float fmt_2e self td pd now,
    status (update_gnss_data self td pd) = LOCKED ->
    check_compliance str_float fmt_2e (update_gnss_data self td pd) None now
    = (None, true).
Proof.
  intros str_float fmt_2e self td pd now H.
  destruct (update_locked_inv self td pd H) as (Hq & Hu).
  unfold check_compliance. cbn [time_data update_gnss_data].
  rewrite (below_50_not_above_100 _ Hu), (above_0_98_not_below_0_95 _ Hq).
  reflexivity.
Qed.

Lemma locked_sample_passes_timing_check_witness :
  check_compliance (fun _ => EmptyString) (fun _ => EmptyString)
    (update_gnss_data init good_sample sample_position) None "t"
  = (None, true).
Proof.
  apply (locked_sample_passes_timing_check
           (fun _ => EmptyString) (fun _ => EmptyString)
           init good_sample sample_position "t").
  vm_compute. reflexivity.
Defined.

End GnssMore.

(** * Further properties of the compliance monitor *)

Module ComplianceMore.
Import Compliance.

Lemma forallb_filter_nil {A : Type} (p : A -> bool) (l : list A) :
  forallb p l = true <-> filter (fun x => negb (p x)) l = [].
Proof.
  induction l as [|a l IH]; cbn [forallb filter]; [tauto|].
  destruct (p a); cbn [negb andb]; [exact IH|].
  split; discriminate.
Qed.

Lemma check_entries_app (l1 l2 : list LogEntry) :
  check_entries (l1 ++ l2) = check_entries l1 ++ check_entries l2.
Proof. apply flat_map_app. Qed.

Lemma gnss_entries_app (l1 l2 : list LogEntry) :
  gnss_entries (l1 ++ l2) = gnss_entries l1 ++ gnss_entries l2.
Proof. apply flat_map_app. Qed.

Lemma log_length_split (log : list LogEntry) :
  length log = (length (check_entries log) + length (gnss_entries log))%nat.
Proof.
  unfold check_entries, gnss_entries.
  induction log as [|[c|g] log IH]; cbn [flat_map app length]; lia.
Qed.

Section Monitor.

Variable md5_hexdigest : string -> string.
Variable json_dumps : parameters_t -> string.

Abbreviation evaluate := (evaluate md5_hexdigest json_dumps).
Abbreviation check_operation := (check_operation md5_hexdigest json_dumps).
Abbreviation enforce_compliance := (enforce_compliance md5_hexdigest json_dumps).
Abbreviation run := (run md5_hexdigest json_dumps).
Abbreviation step := (step md5_hexdigest json_dumps).

(** *** Fail-open requests *)

Lemma check_items_absent items params :
  (forall param spec, In (param, spec) items -> lookup param params = None) ->
  check_items items params = true.
Proof.
  intros H. destruct (check_items items params) eqn:E; [reflexivity|].
  apply ComplianceFacts.check_items_false_iff in E.
  destruct E as (param & spec & value & Hin & Hl & _).
  rewrite (H param spec Hin) in Hl. discriminate.
Qed.

(** X9.  A request is compliant, at every level and under every rule
    set, when it has no [frequency] and no [tx_power] parameter and
    none of the parameters the 3GPP table lists for its operation; in
    particular a request without parameters is always compliant, and
    [enforce_compliance] lets it proceed and logs no violation. *)
Theorem request_without_checked_parameters_passes :
  (forall self op params now,
      lookup "frequency" params = None ->
      lookup "tx_power" params = None ->
      (forall reqs param spec,
          lookup op (requirements (standards self)) = Some reqs ->
          In (param, spec) reqs -> lookup param params = None) ->
      compliant (evaluate self op params now) = true /\
      violations (evaluate self op params now) = []) /\
  (forall self op now,
      compliant (evaluate self op [] now) = true /\
      action (snd (enforce_compliance self op [] now)) = proceed /\
      violations_log (fst (enforce_compliance self op [] now))
      = violations_log self).
Proof.
  assert (G : forall self op params now,
             lookup "frequency" params = None ->
             lookup "tx_power" params = None ->
             (forall reqs param spec,
                 lookup op (requirements (standards self)) = Some reqs ->
                 In (param, spec) reqs -> lookup param params = None) ->
             compliant (evaluate self op params now) = true /\
             violations (evaluate self op params now) = []).
  { intros self op params now Hf Hp Hr.
    assert (F : frequency_violated self params = false)
      by (unfold frequency_violated; rewrite Hf; reflexivity).
    assert (P : power_violated self params = false)
      by (unfold power_violated; rewrite Hp; reflexivity).
    destruct (ComplianceFacts.rules_all_pass self op params F P) as (Ha & Hv).
    assert (Hg : gpp_passes self op params = true).
    { unfold gpp_passes, _check_3gpp_requirement.
      destruct (lookup op (requirements (standards self))) as [reqs|] eqn:E;
        [|reflexivity].
      apply check_items_absent. intros param spec. apply (Hr reqs); reflexivity. }
    rewrite ComplianceFacts.evaluate_closed_form. cbn [compliant violations].
    rewrite Ha, Hv, Hg. split; reflexivity. }
  split; [exact G|].
  intros self op now.
  destruct (G self op [] now) as (Hc & _); try reflexivity.
  split; [exact Hc|].
  rewrite ComplianceFacts.enforce_compliance_decision,
    ComplianceFacts.enforce_compliance_state,
    ComplianceFacts.check_operation_state.
  cbv zeta. rewrite Hc. split; reflexivity.
Qed.

(** *** The shape of a verdict *)

(** X10.  In every verdict the compliant flag is true exactly when the
    list of violations is empty.  The rules contribute all or nothing:
    their entries are those of every loaded rule, in order, when the
    frequency or the power check fails, and none otherwise; so a verdict
    has at most one entry more than there are rules. *)
Theorem verdict_flag_matches_violations :
  forall self op params now,
    let v := evaluate self op params now in
    (compliant v = true <-> violations v = []) /\
    rule_violations self op params
    = (if frequency_violated self params || power_violated self params
       then map rule_violation (rules self) else []) /\
    (length (violations v) <= length (rules self) + 1)%nat.
Proof.
  intros self op params now v.
  assert (Hrv : rule_violations self op params
                = (if frequency_violated self params
                      || power_violated self params
                   then map rule_violation (rules self) else [])).
  { assert (Hfail : frequency_violated self params = true \/
                    power_violated self params = true ->
                    rule_violations self op params
                    = map rule_violation (rules self)).
    { intros Hv.
      assert (Hd : rules self = [] \/ rules self <> [])
        by (destruct (rules self); [left; reflexivity|right; discriminate]).
      destruct Hd as [Hnil|Hne].
      - unfold rule_violations. rewrite Hnil. reflexivity.
      - apply (ComplianceFacts.rules_all_fail self op params Hv Hne). }
    destruct (frequency_violated self params) eqn:F; cbn [orb].
    - apply Hfail. left. reflexivity.
    - destruct (power_violated self params) eqn:P.
      + apply Hfail. right. reflexivity.
      + apply ComplianceFacts.rules_all_pass; assumption. }
  unfold v. rewrite ComplianceFacts.evaluate_closed_form.
  cbn [compliant violations]. split; [|split; [exact Hrv|]].
  - rewrite andb_true_iff, forallb_filter_nil. unfold rule_violations.
    destruct (gpp_passes self op params).
    + rewrite app_nil_r. split.
      * intros (-> & _). reflexivity.
      * intros H. apply map_eq_nil in H. auto.
    + split.
      * intros (_ & H). discriminate H.
      * intros H. apply app_eq_nil in H. destruct H as (_ & H).
        discriminate H.
  - rewrite length_app, Hrv.
    destruct (_ || _); destruct (gpp_passes self op params);
      cbn [length]; rewrite ?length_map; lia.
Qed.

(** *** The two logs over a history *)

Lemma step_logs_agree self c : logs_agree self -> logs_agree (step self c).
Proof.
  unfold logs_agree. intros H.
  destruct c as [op params now|op params now|config now|nl nu];
    cbn [Compliance.step].
  1,2: rewrite ?ComplianceFacts.enforce_compliance_state,
         ComplianceFacts.check_operation_state;
    cbv zeta; cbn [fst violations_log operations_log];
    rewrite filter_app; cbn [filter];
    destruct (compliant (evaluate self op params now)); cbn [negb];
    rewrite ?check_entries_app, ?app_nil_r, H; reflexivity.
  - unfold monitor_gnss_operation. destruct config as [config|];
      cbn [fst]; [|exact H].
    destruct (negb _); cbn [fst violations_log operations_log]; [|exact H].
    rewrite check_entries_app, H. apply app_nil_r.
  - exact H.
Qed.

Lemma run_logs_agree self cs : logs_agree self -> logs_agree (run self cs).
Proof.
  unfold Compliance.run. revert self.
  induction cs as [|c cs IH]; intros self H; cbn [fold_left]; [exact H|].
  apply IH, step_logs_agree, H.
Qed.

(** X11.  Over any history of calls on a fresh monitor, the verdicts in
    the violation log are exactly the non-compliant verdicts of the
    audit trail, in the same order; so the violation log has as many
    entries as there were non-compliant operations plus failed GNSS
    checks, and the report's total_violations exceeds its
    non_compliant_operations by the number of failed GNSS checks. *)
Theorem violation_log_mirrors_audit_trail :
  forall rs lvl stds cs,
    let st := run (fresh rs lvl stds) cs in
    check_entries (violations_log st)
    = filter (fun c => negb (compliant c)) (operations_log st) /\
    length (violations_log st)
    = (count_if (fun c => negb (compliant c)) (operations_log st)
       + length (gnss_entries (violations_log st)))%nat /\
    (forall now_local now_utc,
        let r := generate_compliance_report md5_hexdigest st now_local now_utc in
        total_violations (summary r)
        = (non_compliant_operations (summary r)
           + length (gnss_entries (violations_log st)))%nat).
Proof.
  intros rs lvl stds cs st.
  assert (H : logs_agree st)
    by (apply run_logs_agree; reflexivity).
  assert (L : length (violations_log st)
              = (count_if (fun c => negb (compliant c)) (operations_log st)
                 + length (gnss_entries (violations_log st)))%nat).
  { rewrite (log_length_split (violations_log st)) at 1.
    unfold count_if. rewrite <- H. reflexivity. }
  split; [exact H|]. split; [exact L|].
  intros now_local now_utc r. exact L.
Qed.

(** *** The LAB bands on integer frequencies *)

Lemma int_float_compare_exact (z : Z) (x : float) (c : Z) :
  float_is_int x c -> int_float_compare z x = Some (z ?= c).
Proof.
  intros (m & e & -> & He & Hm). unfold int_float_compare.
  destruct (Z.leb_spec 0 e); [lia|]. rewrite Hm. f_equal.
  assert (Hk : 0 < 2 ^ (- e)) by (apply Z.pow_pos_nonneg; lia).
  set (k := 2 ^ (- e)) in *.
  destruct (Z.compare_spec z c); destruct (Z.compare_spec (z * k) (c * k));
    try reflexivity; nia.
Qed.

Lemma num_leb_int_float (z : Z) (x : float) (c : Z) :
  float_is_int x c -> num_leb (PyInt z) (PyFloat x) = (z <=? c).
Proof.
  intros H. unfold num_leb, num_compare.
  rewrite (int_float_compare_exact z x c H). unfold Z.leb.
  destruct (z ?= c); reflexivity.
Qed.

Lemma num_leb_float_int (z : Z) (x : float) (c : Z) :
  float_is_int x c -> num_leb (PyFloat x) (PyInt z) = (c <=? z).
Proof.
  intros H. unfold num_leb, num_compare.
  rewrite (int_float_compare_exact z x c H). cbn [option_map].
  unfold Z.leb. rewrite (Z.compare_antisym z c).
  destruct (z ?= c); reflexivity.
Qed.

Lemma float_of_Z_is_int_1565420000 :
  float_is_int (float_of_Z 1565420000) 1565420000.
Proof. exists 6565847367680000%positive, (-22). repeat split. Qed.

Lemma float_of_Z_is_int_1585420000 :
  float_is_int (float_of_Z 1585420000) 1585420000.
Proof. exists 6649733447680000%positive, (-22). repeat split. Qed.

Lemma float_of_Z_is_int_2400000000 :
  float_is_int (float_of_Z 2400000000) 2400000000.
Proof. exists 5033164800000000%positive, (-21). repeat split. Qed.

Lemma float_of_Z_is_int_2483500000 :
  float_is_int (float_of_Z 2483500000) 2483500000.
Proof. exists 5208276992000000%positive, (-21). repeat split. Qed.

Lemma float_of_Z_is_int_1000000000 :
  float_is_int (float_of_Z 1000000000) 1000000000.
Proof. exists 8388608000000000%positive, (-23). repeat split. Qed.

(** X12.  At level LAB an integer frequency, in Hz, passes the frequency
    check exactly when it lies in one of [1565420000, 1585420000],
    [2400000000, 2483500000] and [0, 1000000000], ends included: the
    float bounds of the band table stand for these integers exactly. *)
Theorem lab_bands_on_integer_frequencies :
  forall self params f,
    compliance_level self = LAB ->
    lookup "frequency" params = Some (PyInt f) ->
    frequency_violated self params
    = negb ((1565420000 <=? f) && (f <=? 1585420000)
            || ((2400000000 <=? f) && (f <=? 2483500000)
                || (0 <=? f) && (f <=? 1000000000))).
Proof.
  intros self params f Hlvl Hf. unfold frequency_violated.
  rewrite Hf, (ComplianceFacts.lab_bands self Hlvl).
  unfold in_bands. cbn [existsb fst snd].
  rewrite (num_leb_float_int f _ _ float_of_Z_is_int_1565420000),
    (num_leb_int_float f _ _ float_of_Z_is_int_1585420000),
    (num_leb_float_int f _ _ float_of_Z_is_int_2400000000),
    (num_leb_int_float f _ _ float_of_Z_is_int_2483500000),
    (num_leb_int_float f _ _ float_of_Z_is_int_1000000000).
  rewrite orb_false_r. reflexivity.
Qed.

(** *** The gate over consecutive calls *)

Lemma recent_count_after_violation self op params now :
  compliant (evaluate self op params now) = false ->
  recent_count 10 op
    (violations_log (fst (enforce_compliance self op params now)))
  = S (recent_count 9 op (violations_log self)).
Proof.
  intros Hc.
  rewrite ComplianceFacts.enforce_compliance_state,
    ComplianceFacts.check_operation_state.
  cbv zeta. rewrite Hc. cbn [fst violations_log].
  rewrite ComplianceFacts.recent_count_snoc. cbn [entry_is].
  rewrite ComplianceFacts.evaluate_closed_form. cbn [operation].
  rewrite String.eqb_refl. lia.
Qed.

Lemma action_of_decision self op params now :
  action (snd (enforce_compliance self op params now))
  = if compliant (evaluate self op params now) then proceed
    else if (3 <=? recent_count 10 op
                     (violations_log
                        (fst (enforce_compliance self op params now))))%nat
         then block else warn.
Proof.
  rewrite ComplianceFacts.enforce_compliance_decision. cbv zeta.
  unfold recent_count.
  destruct (compliant (evaluate self op params now)); [reflexivity|].
  destruct (3 <=? _)%nat; reflexivity.
Qed.

(** X13.  A block is not lifted by asking again: when a request for an
    operation is blocked, the next non-compliant request for the same
    operation is blocked too, whatever its parameters. *)
Theorem block_persists :
  forall self op params now params' now',
    action (snd (enforce_compliance self op params now)) = block ->
    compliant (evaluate self op params' now') = false ->
    action (snd (enforce_compliance
                   (fst (enforce_compliance self op params now))
                   op params' now')) = block.
Proof.
  intros self op params now params' now' Hb Hc'.
  set (self' := fst (enforce_compliance self op params now)).
  assert (H3 : (3 <= recent_count 10 op (violations_log self'))%nat).
  { rewrite action_of_decision in Hb. fold self' in Hb.
    destruct (compliant (evaluate self op params now)); [discriminate|].
    destruct (Nat.leb_spec 3 (recent_count 10 op (violations_log self')));
      [assumption|discriminate]. }
  assert (Hcfg : evaluate self' op params' now' = evaluate self op params' now').
  { apply ComplianceFacts.evaluate_config; unfold self';
      rewrite ComplianceFacts.enforce_compliance_state,
        ComplianceFacts.check_operation_state; reflexivity. }
  rewrite action_of_decision, Hcfg, Hc'.
  rewrite recent_count_after_violation by (rewrite Hcfg; exact Hc').
  assert (Hs := ComplianceFacts.recent_count_step 9 op (violations_log self')).
  destruct (Nat.leb_spec 3 (S (recent_count 9 op (violations_log self'))));
    [reflexivity|lia].
Qed.

Lemma last_n_app_long {A : Type} (n : nat) (older recent : list A) :
  (n <= length recent)%nat -> last_n n (older ++ recent) = last_n n recent.
Proof.
  intros H. unfold last_n. rewrite length_app, skipn_app.
  rewrite skipn_all2 by lia. cbn [app]. f_equal. lia.
Qed.

Lemma filter_none {A : Type} (p : A -> bool) (l : list A) :
  Forall (fun x => p x = false) l -> filter p l = [].
Proof.
  induction 1 as [|a l Ha _ IH]; cbn [filter]; [reflexivity|].
  rewrite Ha. exact IH.
Qed.

Lemma Forall_skipn {A : Type} (P : A -> Prop) (k : nat) (l : list A) :
  Forall P l -> Forall P (skipn k l).
Proof.
  intros H. rewrite <- (firstn_skipn k l) in H.
  apply Forall_app in H. tauto.
Qed.

(** X14.  The window is shared by all operations and by the GNSS
    checks: once nine or more entries that are not for an operation have
    been logged after its last violation, the next non-compliant request
    for it is allowed with a warning, however many violations it had
    before. *)
Theorem other_violations_reset_the_gate :
  forall self op params now older recent,
    violations_log self = older ++ recent ->
    (9 <= length recent)%nat ->
    Forall (fun e => entry_is op e = false) recent ->
    compliant (evaluate self op params now) = false ->
    allowed (snd (enforce_compliance self op params now)) = true /\
    action (snd (enforce_compliance self op params now)) = warn.
Proof.
  intros self op params now older recent Hlog Hlen Hall Hc.
  assert (H0 : recent_count 9 op (violations_log self) = 0%nat).
  { unfold recent_count. rewrite Hlog, last_n_app_long by exact Hlen.
    rewrite filter_none; [reflexivity|].
    unfold last_n. apply Forall_skipn, Hall. }
  assert (H1 := recent_count_after_violation self op params now Hc).
  rewrite H0 in H1.
  rewrite ComplianceFacts.enforce_compliance_decision. cbv zeta.
  rewrite Hc. fold (recent_count 10 op
                      (violations_log
                         (fst (enforce_compliance self op params now)))).
  rewrite H1. split; reflexivity.
Qed.

End Monitor.

Lemma block_persists_witness :
  action (snd (enforce_compliance plain_digest keys_dumps
                 (fst (enforce_compliance plain_digest keys_dumps warned_twice
                         "transmit_signal" gsm_params t2))
                 "transmit_signal" gsm_params t2)) = block.
Proof.
  apply (block_persists plain_digest keys_dumps warned_twice
           "transmit_signal" gsm_params t2 gsm_params t2);
    vm_compute; reflexivity.
Defined.

Lemma other_violations_reset_the_gate_witness :
  action (snd (enforce_compliance plain_digest keys_dumps flushed
                 "transmit_signal" gsm_params t2)) = warn.
Proof.
  apply (other_violations_reset_the_gate plain_digest keys_dumps flushed
           "transmit_signal" gsm_params t2
           (firstn 3 (violations_log flushed))
           (skipn 3 (violations_log flushed))).
  - symmetry. apply firstn_skipn.
  - vm_compute. lia.
  - vm_compute. repeat constructor.
  - vm_compute. reflexivity.
Defined.

Lemma request_without_checked_parameters_passes_witness :
  compliant (evaluate plain_digest keys_dumps test_monitor
               "signal_analyze" [("gain", PyInt 40)]%string t0) = true.
Proof.
  apply (proj1 (request_without_checked_parameters_passes
                  plain_digest keys_dumps)
           test_monitor "signal_analyze"%string [("gain", PyInt 40)]%string
           t0).
  - reflexivity.
  - reflexivity.
  - intros reqs param spec H Hin. vm_compute in H. injection H as <-.
    destruct Hin as [E|[E|[]]]; injection E as <- _; reflexivity.
Defined.

Lemma lab_bands_on_integer_frequencies_witness :
  frequency_violated lab_monitor gps_params = false.
Proof.
  rewrite (lab_bands_on_integer_frequencies lab_monitor gps_params 1575420000);
    reflexivity.
Defined.

(** *** The recommendations of the report *)

Lemma get_count_bump (r k : string) (d : dict nat) :
  get_count r (bump k d)
  = (get_count r d + if String.eqb r k then 1 else 0)%nat.
Proof.
  unfold get_count. induction d as [|[k' n] d IH]; cbn [bump lookup].
  - destruct (String.eqb r k); reflexivity.
  - destruct (String.eqb_spec k k') as [->|Hk]; cbn [lookup].
    + destruct (String.eqb r k'); lia.
    + destruct (String.eqb_spec r k') as [->|Hr].
      * destruct (String.eqb_spec k' k) as [->|_]; [contradiction|lia].
      * exact IH.
Qed.

Lemma bump_keys_in (x k : string) (d : dict nat) :
  In x (map fst (bump k d)) -> x = k \/ In x (map fst d).
Proof.
  induction d as [|[k' n] d IH]; cbn [bump map fst In].
  - intros [H|[]]. left. symmetry. exact H.
  - destruct (String.eqb k k'); cbn [map fst In]; [tauto|].
    intros [H|H]; [tauto|]. destruct (IH H); tauto.
Qed.

Lemma bump_keys_nodup (k : string) (d : dict nat) :
  NoDup (map fst d) -> NoDup (map fst (bump k d)).
Proof.
  induction d as [|[k' n] d IH]; cbn [bump map fst]; intros H.
  - repeat constructor. intros [].
  - inversion H as [|? ? Hin Hnd]; subst.
    destruct (String.eqb_spec k k') as [->|Hk]; cbn [map fst].
    + constructor; assumption.
    + constructor; [|apply IH, Hnd].
      intros Hx. destruct (bump_keys_in _ _ _ Hx); [congruence|contradiction].
Qed.

Lemma lookup_In {A : Type} (k : string) (d : dict A) (v : A) :
  lookup k d = Some v -> In (k, v) d.
Proof.
  induction d as [|[k' v'] d IH]; cbn [lookup]; [discriminate|].
  destruct (String.eqb_spec k k') as [->|_].
  - intros [= ->]. left. reflexivity.
  - intros H. right. apply IH, H.
Qed.

Lemma In_lookup {A : Type} (k : string) (d : dict A) (v : A) :
  NoDup (map fst d) -> In (k, v) d -> lookup k d = Some v.
Proof.
  induction d as [|[k' v'] d IH]; cbn [lookup map fst]; [intros _ []|].
  intros H [E|Hin]; inversion H as [|? ? Hni Hnd]; subst.
  - injection E as -> ->. rewrite String.eqb_refl. reflexivity.
  - destruct (String.eqb_spec k k') as [->|_]; [|apply IH; assumption].
    exfalso. apply Hni. apply (in_map fst) in Hin. exact Hin.
Qed.

Lemma violation_counts_flat (log : list LogEntry) (d : dict nat) :
  fold_left
    (fun counts violation =>
       fold_left (fun counts v => bump (rule_id v) counts)
                 (entry_violations violation) counts)
    log d
  = fold_left (fun counts v => bump (rule_id v) counts)
              (flat_map entry_violations log) d.
Proof.
  revert d. induction log as [|e log IH]; intros d; cbn [fold_left flat_map].
  - reflexivity.
  - rewrite fold_left_app. apply IH.
Qed.

Lemma fold_bump_count (r : string) (vs : list Violation) (d : dict nat) :
  get_count r (fold_left (fun counts v => bump (rule_id v) counts) vs d)
  = (get_count r d + count_if (fun v => String.eqb r (rule_id v)) vs)%nat.
Proof.
  unfold count_if. revert d.
  induction vs as [|v vs IH]; intros d; cbn [fold_left filter length].
  - lia.
  - rewrite IH, get_count_bump.
    destruct (String.eqb r (rule_id v)); cbn [length]; lia.
Qed.

Lemma fold_bump_nodup (vs : list Violation) (d : dict nat) :
  NoDup (map fst d) ->
  NoDup (map fst (fold_left (fun counts v => bump (rule_id v) counts) vs d)).
Proof.
  revert d. induction vs as [|v vs IH]; intros d H; cbn [fold_left].
  - exact H.
  - apply IH, bump_keys_nodup, H.
Qed.

(** Each rule named in the log has its number of occurrences in the
    dict, and the dict holds nothing else. *)
Lemma violation_counts_spec (log : list LogEntry) (r : string) (n : nat) :
  In (r, n) (violation_counts log)
  <-> n = occurrences r log /\ lookup r (violation_counts log) = Some n.
Proof.
  assert (Hnd : NoDup (map fst (violation_counts log))).
  { unfold violation_counts. rewrite violation_counts_flat.
    apply fold_bump_nodup. constructor. }
  assert (Hget : get_count r (violation_counts log) = occurrences r log).
  { unfold violation_counts, occurrences.
    rewrite violation_counts_flat, fold_bump_count. reflexivity. }
  split.
  - intros Hin. pose proof (In_lookup _ _ _ Hnd Hin) as Hl.
    split; [|exact Hl]. rewrite <- Hget. unfold get_count. rewrite Hl.
    reflexivity.
  - intros (_ & Hl). apply lookup_In, Hl.
Qed.

Lemma violation_counts_present (log : list LogEntry) (r : string) :
  (0 < occurrences r log)%nat ->
  In (r, occurrences r log) (violation_counts log).
Proof.
  intros H. apply lookup_In.
  assert (Hget : get_count r (violation_counts log) = occurrences r log).
  { unfold violation_counts, occurrences.
    rewrite violation_counts_flat, fold_bump_count. reflexivity. }
  unfold get_count in Hget.
  destruct (lookup r (violation_counts log)) as [n|]; [congruence|lia].
Qed.

Lemma recommendations_unfold (self : ComplianceMonitor) :
  _generate_recommendations self
  = match
      map (fun kc => retraining_note (fst kc) (snd kc))
          (filter (fun kc => (5 <? snd kc)%nat)
                  (violation_counts (violations_log self)))
      ++ (if (10 <? length (violations_log self))%nat
          then [review_note] else [])
    with
    | [] => [default_note]
    | recs => recs
    end.
Proof.
  unfold _generate_recommendations. fold (violation_counts (violations_log self)).
  unfold retraining_note, review_note, default_note.
  destruct (10 <? length (violations_log self))%nat; rewrite ?app_nil_r;
    match goal with
    | |- match ?l with [] => _ | _ :: _ => _ end = _ => destruct l
    end; reflexivity.
Qed.

(** X15.  The recommendations of a report are never empty.  Every rule
    that the violations of the log name more than 5 times gets its
    retraining note, carrying that number; more than 10 entries in the
    log give the review note; and when no rule is named more than 5
    times and the log has at most 10 entries, the only recommendation is
    the default note. *)
Theorem recommendations_follow_the_log :
  forall self,
    let log := violations_log self in
    let recs := _generate_recommendations self in
    recs <> [] /\
    (forall r, (5 < occurrences r log)%nat ->
               In (retraining_note r (occurrences r log)) recs) /\
    ((10 < length log)%nat -> In review_note recs) /\
    ((forall r, (occurrences r log <= 5)%nat) -> (length log <= 10)%nat ->
     recs = [default_note]).
Proof.
  intros self log recs. unfold recs. rewrite recommendations_unfold.
  fold log.
  set (notes := map (fun kc => retraining_note (fst kc) (snd kc))
                    (filter (fun kc => (5 <? snd kc)%nat)
                            (violation_counts log))).
  set (extra := if (10 <? length log)%nat then [review_note] else []).
  assert (Hsame : forall x, In x (notes ++ extra) ->
                            In x match notes ++ extra with
                                 | [] => [default_note]
                                 | recs => recs
                                 end).
  { intros x Hx. destruct (notes ++ extra); [destruct Hx|exact Hx]. }
  split; [|split; [|split]].
  - destruct (notes ++ extra); discriminate.
  - intros r Hr. apply Hsame, in_or_app. left. unfold notes.
    apply (in_map (fun kc => retraining_note (fst kc) (snd kc))
                  _ (r, occurrences r log)).
    apply filter_In. split.
    + apply violation_counts_present. lia.
    + apply Nat.ltb_lt. exact Hr.
  - intros Hl. apply Hsame, in_or_app. right. unfold extra.
    apply Nat.ltb_lt in Hl. rewrite Hl. left. reflexivity.
  - intros Hr Hl.
    assert (Hn : notes = []).
    { unfold notes.
      replace (filter (fun kc => (5 <? snd kc)%nat) (violation_counts log))
        with (@nil (string * nat)); [reflexivity|].
      symmetry. apply filter_none. apply Forall_forall. intros [r n] Hin.
      apply violation_counts_spec in Hin. destruct Hin as (-> & _).
      apply Nat.ltb_ge, Hr. }
    assert (He : extra = []).
    { unfold extra. destruct (Nat.ltb_spec 10 (length log)); [lia|reflexivity]. }
    rewrite Hn, He. reflexivity.
Qed.

Lemma recommendations_follow_the_log_witness :
  In (retraining_note "REG-001" 6) (_generate_recommendations six_violations).
Proof.
  destruct (recommendations_follow_the_log six_violations) as (_ & H & _).
  apply (H "REG-001"%string). vm_compute. lia.
Defined.

(** *** The compliance level *)

(** X16.  Reading a level back from its configuration text gives the
    level, and a text that is accepted is the text of the level it
    gives; a configuration without the key loads LAB; any other text
    raises ValueError. *)
Theorem compliance_level_round_trip :
  (forall l, parse_level (level_value l) = Ok l) /\
  (forall s l, parse_level s = Ok l -> level_value l = s) /\
  load_level None = Ok LAB /\
  (forall s, (forall l, level_value l <> s) ->
             load_level (Some s) = Raise ValueError).
Proof.
  split; [|split; [|split]].
  - intros []; reflexivity.
  - intros s l. unfold parse_level.
    destruct (String.eqb_spec s "lab") as [->|_]; [intros [= <-]; reflexivity|].
    destruct (String.eqb_spec s "test") as [->|_];
      [intros [= <-]; reflexivity|].
    destruct (String.eqb_spec s "production") as [->|_];
      [intros [= <-]; reflexivity|discriminate].
  - reflexivity.
  - intros s H. unfold load_level, parse_level.
    destruct (String.eqb_spec s "lab") as [->|_];
      [exfalso; apply (H LAB); reflexivity|].
    destruct (String.eqb_spec s "test") as [->|_];
      [exfalso; apply (H TEST); reflexivity|].
    destruct (String.eqb_spec s "production") as [->|_];
      [exfalso; apply (H PRODUCTION); reflexivity|reflexivity].
Qed.

Lemma compliance_level_round_trip_witness :
  level_value TEST = "test"%string.
Proof.
  apply (proj1 (proj2 compliance_level_round_trip) "test"%string TEST).
  reflexivity.
Defined.

End ComplianceMore.

(** * Properties of the framework *)

Module FrameworkFacts.
Import Compliance Framework.

(** *** The module table *)

Lemma lookup_update_same {A : Type} (k : string) (f : A -> A) (d : dict A) :
  lookup k (update k f d) = option_map f (lookup k d).
Proof.
  induction d as [|[k' v] d IH]; cbn [update lookup]; [reflexivity|].
  destruct (String.eqb k k') eqn:E; cbn [lookup]; rewrite E;
    [reflexivity|exact IH].
Qed.

Lemma lookup_update_other {A : Type} (k k' : string) (f : A -> A)
    (d : dict A) :
  k' <> k -> lookup k' (update k f d) = lookup k' d.
Proof.
  intros Hne. induction d as [|[k0 v] d IH]; cbn [update lookup];
    [reflexivity|].
  destruct (String.eqb_spec k k0) as [->|Hk]; cbn [lookup].
  - destruct (String.eqb_spec k' k0); [contradiction|reflexivity].
  - destruct (String.eqb k' k0); [reflexivity|exact IH].
Qed.

Lemma update_absent {A : Type} (k : string) (f : A -> A) (d : dict A) :
  lookup k d = None -> update k f d = d.
Proof.
  induction d as [|[k' v] d IH]; cbn [update lookup]; [reflexivity|].
  destruct (String.eqb k k'); [discriminate|].
  intros H. rewrite (IH H). reflexivity.
Qed.

Lemma map_update {A B : Type} (g : string * A -> B) (k : string)
    (f : A -> A) (d : dict A) :
  (forall k' v, g (k', f v) = g (k', v)) ->
  map g (update k f d) = map g d.
Proof.
  intros Hg. induction d as [|[k' v] d IH]; cbn [update map]; [reflexivity|].
  destruct (String.eqb k k'); cbn [map]; [rewrite Hg|rewrite IH]; reflexivity.
Qed.

Lemma registry_update self k st :
  registry (with_modules self (update k (set_status st) (modules self)))
  = registry self.
Proof.
  unfold registry. cbn [modules with_modules]. apply map_update.
  intros k' v. reflexivity.
Qed.

Lemma update_update {A : Type} (k : string) (f g : A -> A) (d : dict A) :
  update k g (update k f d) = update k (fun v => g (f v)) d.
Proof.
  induction d as [|[k' v] d IH]; cbn [update]; [reflexivity|].
  destruct (String.eqb k k') eqn:E; cbn [update]; rewrite E;
    [reflexivity|rewrite IH; reflexivity].
Qed.

Section Framework.

Variable md5_hexdigest : string -> string.
Variable json_dumps : parameters_t -> string.

Abbreviation evaluate := (evaluate md5_hexdigest json_dumps).
Abbreviation check_operation := (check_operation md5_hexdigest json_dumps).
Abbreviation start_module := (start_module md5_hexdigest json_dumps).
Abbreviation audit_modules := (audit_modules md5_hexdigest json_dumps).
Abbreviation run_compliance_audit :=
  (run_compliance_audit md5_hexdigest json_dumps).
Abbreviation run_test_scenario := (run_test_scenario md5_hexdigest json_dumps).
Abbreviation shutdown := (shutdown md5_hexdigest).
Abbreviation fw_step := (fw_step md5_hexdigest json_dumps).
Abbreviation fw_run := (fw_run md5_hexdigest json_dumps).

(** A request without parameters passes every check. *)
Lemma evaluate_no_parameters monitor op now :
  evaluate monitor op [] now
  = mkCheckResult op [] now true []
      (md5_hexdigest (String.append op (json_dumps []))).
Proof.
  rewrite ComplianceFacts.evaluate_closed_form.
  destruct (ComplianceFacts.rules_all_pass monitor op [] eq_refl eq_refl)
    as (Ha & Hv).
  rewrite Ha, Hv.
  assert (Hg : gpp_passes monitor op [] = true).
  { unfold gpp_passes, _check_3gpp_requirement.
    destruct (lookup op (requirements (standards monitor))) as [reqs|];
      [|reflexivity].
    induction reqs as [|[param spec] reqs IH]; [reflexivity|exact IH]. }
  rewrite Hg. reflexivity.
Qed.

Lemma check_no_parameters monitor op now :
  check_operation monitor op [] now
  = (mkMonitor (rules monitor) (violations_log monitor)
       (compliance_level monitor)
       (operations_log monitor ++ [evaluate monitor op [] now])
       (standards monitor),
     true).
Proof.
  rewrite ComplianceFacts.check_operation_state. cbv zeta.
  rewrite evaluate_no_parameters. reflexivity.
Qed.

(** *** Starting a module *)

(** X17.  [start_module] without keyword arguments, as the command line
    and the interactive prompt call it, never ends in COMPLIANCE_FAILED:
    its check passes under every configuration and logs no violation.
    The call returns whether the module-specific start went through and
    leaves the module RUNNING or in ERROR accordingly, with [last_check]
    set. *)
Theorem start_without_arguments_passes_compliance :
  forall self module_name now_utc now_local env module,
    lookup module_name (modules self) = Some module ->
    let r := start_module self module_name [] now_utc now_local env in
    snd r = starts module_name env /\
    status_of module_name (fst r)
    = Some (if starts module_name env then RUNNING else ERROR) /\
    option_map last_check (lookup module_name (modules (fst r)))
    = Some (Some now_local) /\
    violations_log (compliance_monitor (fst r))
    = violations_log (compliance_monitor self) /\
    length (operations_log (compliance_monitor (fst r)))
    = (length (operations_log (compliance_monitor self))
       + if compliance_required module then 1 else 0)%nat.
Proof.
  intros self module_name now_utc now_local env module Hl r.
  unfold r, Framework.start_module, status_of. rewrite Hl.
  set (self1 := if compliance_required module
                then let (monitor, ok) :=
                       check_operation (compliance_monitor self)
                         (String.append "start_" module_name) [] now_utc in
                     (with_monitor self monitor, ok)
                else (self, true)).
  assert (H1 : snd self1 = true /\
               modules (fst self1) = modules self /\
               violations_log (compliance_monitor (fst self1))
               = violations_log (compliance_monitor self) /\
               length (operations_log (compliance_monitor (fst self1)))
               = (length (operations_log (compliance_monitor self))
                  + if compliance_required module then 1 else 0)%nat).
  { unfold self1. destruct (compliance_required module).
    - rewrite check_no_parameters. cbn. rewrite length_app. cbn. auto.
    - cbn. repeat split. lia. }
  destruct self1 as [s1 ok1]. cbn [fst snd] in H1.
  destruct H1 as (-> & Hm & Hv & Ho). cbn [negb].
  unfold starts, start_gnss_module, start_compliance_module.
  destruct (String.eqb module_name "gnss").
  - destruct (gnss_ctor env) as [g|]; [destruct (thread_starts env)|];
      cbn [fst snd modules with_modules compliance_monitor];
      rewrite ?lookup_update_same, ?Hm, ?Hl; cbn; auto.
  - destruct (String.eqb module_name "compliance");
      [destruct (thread_starts env)|];
      cbn [fst snd modules with_modules compliance_monitor];
      rewrite ?lookup_update_same, ?Hm, ?Hl; cbn; auto.
Qed.

(** X18.  When the compliance check of [start_module] fails, the call
    returns False, the module is left COMPLIANCE_FAILED with its
    [last_check] as it was, nothing is started (the GNSS manager is the
    one held before, whatever the outside would have allowed), and the
    verdict is appended to both logs. *)
Theorem start_refused_by_compliance :
  forall self module_name kwargs now_utc now_local env module,
    lookup module_name (modules self) = Some module ->
    compliance_required module = true ->
    compliant (evaluate (compliance_monitor self)
                 (String.append "start_" module_name) kwargs now_utc)
    = false ->
    let v := evaluate (compliance_monitor self)
               (String.append "start_" module_name) kwargs now_utc in
    let r := start_module self module_name kwargs now_utc now_local env in
    snd r = false /\
    status_of module_name (fst r) = Some COMPLIANCE_FAILED /\
    option_map last_check (lookup module_name (modules (fst r)))
    = Some (last_check module) /\
    gnss_sync (fst r) = gnss_sync self /\
    violations_log (compliance_monitor (fst r))
    = violations_log (compliance_monitor self) ++ [CheckEntry v] /\
    operations_log (compliance_monitor (fst r))
    = operations_log (compliance_monitor self) ++ [v].
Proof.
  intros self module_name kwargs now_utc now_local env module Hl Hreq Hc v r.
  subst v r. unfold Framework.start_module, status_of. rewrite Hl, Hreq.
  rewrite ComplianceFacts.check_operation_state. cbv zeta.
  rewrite Hc. cbn [negb fst snd].
  cbn [modules with_modules with_monitor compliance_monitor gnss_sync
         violations_log operations_log].
  rewrite lookup_update_same, Hl. cbn. auto 10.
Qed.

(** *** The audit and the scenarios *)

Lemma audit_modules_spec ms :
  forall monitor clock i,
    let r := audit_modules monitor ms clock i in
    forallb (fun st => fst (snd st)) (snd r) = true /\
    map fst (snd r)
    = map fst (filter (fun km => compliance_required (snd km)) ms) /\
    rules (fst r) = rules monitor /\
    compliance_level (fst r) = compliance_level monitor /\
    standards (fst r) = standards monitor /\
    violations_log (fst r) = violations_log monitor /\
    length (operations_log (fst r))
    = (length (operations_log monitor)
       + length (filter (fun km => compliance_required (snd km)) ms))%nat.
Proof.
  induction ms as [|[k module] ms IH]; intros monitor clock i;
    cbn [Framework.audit_modules filter snd].
  - cbn. repeat split. lia.
  - destruct (compliance_required module).
    + rewrite check_no_parameters.
      match goal with
      | |- context [audit_modules ?m ms clock (S i)] =>
          specialize (IH m clock (S i)); cbv zeta in IH;
          destruct (audit_modules m ms clock (S i)) as [m' st]
      end.
      cbn [fst snd rules compliance_level standards violations_log
             operations_log] in IH.
      destruct IH as (H1 & H2 & H3 & H4 & H5 & H6 & H7).
      cbn [fst snd forallb map length andb]. rewrite H1, H2, H3, H4, H5, H6, H7.
      rewrite length_app. cbn [length]. repeat split. lia.
    + apply IH.
Qed.

Lemma run_compliance_audit_spec self clock now_local now_utc now :
  let r := run_compliance_audit self clock now_local now_utc now in
  a_success (snd r) = true /\
  map fst (a_module_status (snd r)) = checked_modules self /\
  violations_log (compliance_monitor (fst r))
  = violations_log (compliance_monitor self) /\
  total_operations (a_summary (snd r))
  = (length (operations_log (compliance_monitor self))
     + length (checked_modules self))%nat /\
  modules (fst r) = modules self /\
  gnss_sync (fst r) = gnss_sync self /\
  running (fst r) = running self /\
  rules (compliance_monitor (fst r)) = rules (compliance_monitor self) /\
  compliance_level (compliance_monitor (fst r))
  = compliance_level (compliance_monitor self) /\
  standards (compliance_monitor (fst r)) = standards (compliance_monitor self).
Proof.
  intros r. subst r.
  unfold Framework.run_compliance_audit, checked_modules.
  pose proof (audit_modules_spec (modules self) (compliance_monitor self)
                clock 0) as H.
  cbv zeta in H.
  destruct (audit_modules (compliance_monitor self) (modules self) clock 0)
    as [monitor st].
  cbn [fst snd] in H. destruct H as (H1 & H2 & H3 & H4 & H5 & H6 & H7).
  cbn [fst snd a_success a_module_status a_summary compliance_monitor
         with_monitor modules gnss_sync running generate_compliance_report
         summary total_operations].
  rewrite length_map. auto 12.
Qed.

(** X19.  [run_compliance_audit] always reports success: each of its
    checks carries no parameters, so every module that needs the check
    is found compliant, whatever rules, level and table are loaded and
    whatever the violation log holds.  The audit adds one entry per such
    module to the audit trail and none to the violation log, and leaves
    the module table as it was. *)
Theorem audit_always_succeeds :
  forall self clock now_local now_utc now,
    let r := run_compliance_audit self clock now_local now_utc now in
    a_success (snd r) = true /\
    map fst (a_module_status (snd r)) = checked_modules self /\
    violations_log (compliance_monitor (fst r))
    = violations_log (compliance_monitor self) /\
    total_operations (a_summary (snd r))
    = (length (operations_log (compliance_monitor self))
       + length (checked_modules self))%nat /\
    modules (fst r) = modules self.
Proof.
  intros self clock now_local now_utc now r.
  destruct (run_compliance_audit_spec self clock now_local now_utc now)
    as (H1 & H2 & H3 & H4 & H5 & _).
  auto.
Qed.

(** X20.  The compliance check of [run_test_scenario] never fails, so
    whether a scenario succeeds depends on its name and on whether a
    GNSS manager is held, and on nothing the monitor knows: the GNSS
    test succeeds exactly when a manager is held, the audit always, any
    other name never; no scenario adds to the violation log. *)
Theorem scenario_outcome_ignores_compliance :
  forall self scenario now0 clock now_local now_utc now,
    let r := run_test_scenario self scenario now0 clock now_local now_utc now in
    snd r <> ScenarioError "Compliance check failed" scenario /\
    scenario_success (snd r)
    = (String.eqb scenario "gnss_sync_test"
       && match gnss_sync self with Some _ => true | None => false end
       || String.eqb scenario "compliance_audit") /\
    violations_log (compliance_monitor (fst r))
    = violations_log (compliance_monitor self).
Proof.
  intros self scenario now0 clock now_local now_utc now r. subst r.
  unfold Framework.run_test_scenario. rewrite check_no_parameters.
  cbn [negb].
  destruct (String.eqb_spec scenario "gnss_sync_test") as [->|Hg].
  - cbn [fst snd andb orb]. unfold run_gnss_sync_test.
    cbn [gnss_sync with_monitor compliance_monitor violations_log].
    destruct (gnss_sync self); cbn; repeat split; discriminate.
  - destruct (String.eqb_spec scenario "compliance_audit") as [->|Ha].
    + match goal with
      | |- context [run_compliance_audit ?s clock now_local now_utc now] =>
          pose proof (run_compliance_audit_spec s clock now_local now_utc now)
            as H;
          cbv zeta in H;
          destruct (run_compliance_audit s clock now_local now_utc now)
            as [s' a]
      end.
      cbn [fst snd] in H. destruct H as (H1 & _ & H3 & _).
      cbn [fst snd andb orb scenario_success]. rewrite H1, H3.
      repeat split. discriminate.
    + cbn [fst snd andb orb scenario_success with_monitor compliance_monitor
             violations_log].
      repeat split. intros H. injection H as H _.
      cbn in H. discriminate H.
Qed.

(** *** Stopping *)

Lemma stop_module_fst self k :
  fst (stop_module self k)
  = with_modules self (update k (set_status STOPPED) (modules self)).
Proof.
  unfold stop_module. destruct (lookup k (modules self)) eqn:E;
    [reflexivity|].
  rewrite (update_absent _ _ _ E). destruct self; reflexivity.
Qed.

Lemma fold_stop_modules ks :
  forall self,
    fold_left (fun s k => fst (stop_module s k)) ks self
    = with_modules self
        (fold_left (fun d k => update k (set_status STOPPED) d) ks
                   (modules self)).
Proof.
  induction ks as [|k ks IH]; intros self; cbn [fold_left].
  - destruct self; reflexivity.
  - rewrite IH, stop_module_fst. reflexivity.
Qed.

Lemma fold_update_head {A : Type} (f : A -> A) ks :
  forall k x rest,
    ~ In k ks ->
    fold_left (fun d k' => update k' f d) ks ((k, x) :: rest)
    = (k, x) :: fold_left (fun d k' => update k' f d) ks rest.
Proof.
  induction ks as [|k0 ks IH]; intros k x rest Hni; cbn [fold_left];
    [reflexivity|].
  cbn [update]. destruct (String.eqb_spec k0 k) as [->|Hne].
  - exfalso. apply Hni. left. reflexivity.
  - apply IH. intros Hin. apply Hni. right. exact Hin.
Qed.

Lemma fold_update_all {A : Type} (f : A -> A) (d : dict A) :
  NoDup (map fst d) ->
  fold_left (fun d k => update k f d) (map fst d) d
  = map (fun km => (fst km, f (snd km))) d.
Proof.
  induction d as [|[k v] d IH]; cbn [map fst snd fold_left]; intros H;
    [reflexivity|].
  inversion H as [|? ? Hni Hnd]; subst.
  cbn [update]. rewrite String.eqb_refl.
  rewrite fold_update_head by exact Hni. rewrite (IH Hnd). reflexivity.
Qed.

(** X21.  [shutdown] clears the running flag and leaves every module
    STOPPED, in whatever state it was, touching nothing else of the
    module table or of the monitor; the report it writes is that of the
    monitor as it stood. *)
Theorem shutdown_stops_every_module :
  forall self now_local now_utc,
    NoDup (map fst (modules self)) ->
    let r := shutdown self now_local now_utc in
    running (fst r) = false /\
    modules (fst r)
    = map (fun km => (fst km, set_status STOPPED (snd km))) (modules self) /\
    (forall module_name module,
        lookup module_name (modules self) = Some module ->
        status_of module_name (fst r) = Some STOPPED) /\
    registry (fst r) = registry self /\
    compliance_monitor (fst r) = compliance_monitor self /\
    snd r
    = generate_compliance_report md5_hexdigest (compliance_monitor self)
                                 now_local now_utc.
Proof.
  intros self now_local now_utc Hnd r. subst r. unfold Framework.shutdown.
  cbn [modules]. rewrite fold_stop_modules. cbn [modules fst snd].
  rewrite (fold_update_all _ _ Hnd).
  cbn [running with_modules compliance_monitor modules].
  split; [reflexivity|]. split; [reflexivity|]. split; [|split].
  - intros module_name module Hl. unfold status_of.
    cbn [modules with_modules]. clear Hnd. revert Hl.
    generalize (modules self) as d.
    induction d as [|[k v] d IH]; cbn [map lookup fst snd];
      [discriminate|].
    destruct (String.eqb module_name k); [reflexivity|exact IH].
  - unfold registry. cbn [modules with_modules]. rewrite map_map.
    reflexivity.
  - split; reflexivity.
Qed.

(** *** What no call changes *)

Lemma registry_with_monitor self monitor :
  registry (with_monitor self monitor) = registry self.
Proof. reflexivity. Qed.

Lemma fold_update_registry (f : ModuleInfo -> ModuleInfo) ks :
  (forall m, (name (f m), description (f m), compliance_required (f m))
             = (name m, description m, compliance_required m)) ->
  forall d,
    map (fun km => (fst km, (name (snd km), description (snd km),
                             compliance_required (snd km))))
        (fold_left (fun d k => update k f d) ks d)
    = map (fun km => (fst km, (name (snd km), description (snd km),
                               compliance_required (snd km)))) d.
Proof.
  intros Hf. induction ks as [|k ks IH]; intros d; cbn [fold_left];
    [reflexivity|].
  rewrite IH. apply map_update. intros k' v. cbn [fst snd].
  rewrite Hf. reflexivity.
Qed.

Lemma fw_step_same_setup self c : same_setup self (fw_step self c).
Proof.
  unfold same_setup.
  destruct c as [module_name kwargs now_utc now_local env|module_name
                |scenario now0 clock now_local now_utc now|config now
                |now_local now_utc]; cbn [Framework.fw_step].
  - unfold Framework.start_module.
    destruct (lookup module_name (modules self)) as [module|];
      [|repeat split].
    destruct (compliance_required module);
      rewrite ?ComplianceFacts.check_operation_state; cbv zeta;
      try destruct (compliant _); cbn [negb];
      unfold start_gnss_module, start_compliance_module;
      destruct (String.eqb module_name "gnss");
      try destruct (gnss_ctor env);
      try destruct (String.eqb module_name "compliance");
      try destruct (thread_starts env);
      unfold registry;
      cbn [fst snd modules with_modules with_monitor compliance_monitor
             rules compliance_level standards];
      rewrite ?map_update by (intros; reflexivity);
      repeat split.
  - rewrite stop_module_fst. rewrite registry_update. repeat split.
  - unfold Framework.run_test_scenario. rewrite check_no_parameters.
    cbn [negb].
    destruct (String.eqb scenario "gnss_sync_test"); [repeat split|].
    destruct (String.eqb scenario "compliance_audit"); [|repeat split].
    match goal with
    | |- context [run_compliance_audit ?s clock now_local now_utc now] =>
        pose proof (run_compliance_audit_spec s clock now_local now_utc now)
          as H;
        cbv zeta in H;
        destruct (run_compliance_audit s clock now_local now_utc now)
          as [s' a]
    end.
    cbn [fst snd] in *.
    destruct H as (_ & _ & _ & _ & Hm & _ & _ & Hr & Hl & Hs).
    unfold registry. rewrite Hm, Hr, Hl, Hs. repeat split.
  - unfold compliance_thread.
    destruct (ComplianceFacts.step_config md5_hexdigest json_dumps
                (compliance_monitor self) (CallGnss config now))
      as (Hr & Hl & Hs).
    cbn [Compliance.step] in Hr, Hl, Hs.
    cbn [compliance_monitor with_monitor]. rewrite Hr, Hl, Hs.
    repeat split.
  - unfold Framework.shutdown. cbn [modules fst]. rewrite fold_stop_modules.
    cbn [modules compliance_monitor with_modules]. unfold registry.
    cbn [modules with_modules].
    rewrite fold_update_registry by (intros; reflexivity).
    repeat split.
Qed.

Lemma fw_run_same_setup self cs : same_setup self (fw_run self cs).
Proof.
  unfold Framework.fw_run. revert self.
  induction cs as [|c cs IH]; intros self; cbn [fold_left].
  - unfold same_setup. repeat split.
  - destruct (fw_step_same_setup self c) as (H1 & H2 & H3 & H4).
    destruct (IH (fw_step self c)) as (G1 & G2 & G3 & G4).
    unfold same_setup. rewrite G1, G2, G3, G4. auto.
Qed.

Lemma checked_modules_registry self :
  checked_modules self
  = map fst (filter (fun e => snd (snd e)) (registry self)).
Proof.
  unfold checked_modules, registry. generalize (modules self) as d.
  induction d as [|[k m] d IH]; [reflexivity|].
  cbn [filter map fst snd].
  destruct (compliance_required m); cbn [map fst]; rewrite IH; reflexivity.
Qed.

(** X22.  No history of framework calls adds, removes or renames a
    module or lifts its need for the compliance check, and none touches
    the rules, the level or the requirement table of the monitor: after
    any sequence of starts, stops, scenarios, GNSS checks and shutdowns
    the module table has the five registered keys, all of them checked,
    and the monitor has the configuration it was built with. *)
Theorem framework_setup_is_fixed :
  forall monitor cs,
    let self := fw_run (init monitor) cs in
    registry self = registry (init monitor) /\
    map fst (modules self)
    = ["gnss"; "sim_swap"; "intercept"; "physical_layer"; "compliance"]%string
    /\
    checked_modules self = map fst (modules self) /\
    rules (compliance_monitor self) = rules monitor /\
    compliance_level (compliance_monitor self) = compliance_level monitor /\
    standards (compliance_monitor self) = standards monitor.
Proof.
  intros monitor cs self.
  destruct (fw_run_same_setup (init monitor) cs) as (H1 & H2 & H3 & H4).
  fold self in H1, H2, H3, H4.
  assert (Hk : map fst (modules self) = map fst (registry self))
    by (unfold registry; rewrite map_map; reflexivity).
  assert (Hc : checked_modules self
               = map fst (filter (fun e => snd (snd e)) (registry self)))
    by apply checked_modules_registry.
  split; [exact H1|]. rewrite Hc, Hk, H1. repeat split; assumption.
Qed.

End Framework.

Lemma start_without_arguments_passes_compliance_witness :
  status_of "sim_swap"
    (fst (start_module plain_digest keys_dumps
            (init test_monitor) "sim_swap" [] t0 t0 failing_env))
  = Some RUNNING.
Proof.
  destruct (start_without_arguments_passes_compliance plain_digest keys_dumps
              (init test_monitor) "sim_swap" t0 t0 failing_env
              (mkModuleInfo "sim_swap" STOPPED "SIM Swap Attack Simulation"
                            true None) eq_refl) as (_ & H & _).
  exact H.
Defined.

Lemma start_refused_by_compliance_witness :
  status_of "gnss"
    (fst (start_module plain_digest keys_dumps lab_framework "gnss"
            gsm_params t0 t0 working_env))
  = Some COMPLIANCE_FAILED.
Proof.
  destruct (start_refused_by_compliance plain_digest keys_dumps lab_framework
              "gnss" gsm_params t0 t0 working_env
              (mkModuleInfo "gnss" STOPPED "GNSS Synchronization and Timing"
                            true None) eq_refl eq_refl)
    as (_ & H & _); [vm_compute; reflexivity|exact H].
Defined.

Lemma shutdown_stops_every_module_witness :
  status_of "compliance" (fst (shutdown plain_digest lab_framework t0 t0))
  = Some STOPPED.
Proof.
  destruct (shutdown_stops_every_module plain_digest lab_framework t0 t0)
    as (_ & _ & H & _).
  - vm_compute. repeat constructor; cbn; intuition discriminate.
  - apply (H "compliance"%string
             (mkModuleInfo "compliance" RUNNING
                "Regulatory Compliance Monitoring" true None)).
    reflexivity.
Defined.

End FrameworkFacts.
